(** * The task resource of the task-manager server

    A shallow embedding of [pytaskmanager/server/resource/task.py]: the
    REST resources [Task] (get, post, delete) and [TaskResult] (get),
    together with the parts of their environment the handlers talk to:
    the request payload (a JSON object), [json.dumps], the ORM layer
    [db], and the [socketio] notifier. *)

From Stdlib Require Import ZArith NArith List Bool String Ascii Lia.
From Stdlib Require Import DecimalFacts DecimalPos DecimalN DecimalZ.
Import ListNotations.

#[local] Set Warnings "-register-all,-notation-for-abbreviation".

(** ** Python strings

    A Python [str] is a sequence of Unicode code points. *)

Notation pystr := (list N) (only parsing).

(** A string literal of the source (its characters are ASCII). *)
Definition lit (s : string) : pystr :=
  map N_of_ascii (list_ascii_of_string s).

Definition str_eqb (a b : pystr) : bool :=
  if list_eq_dec N.eq_dec a b then true else false.

(** [sep.join(parts)]. *)
Fixpoint join (sep : pystr) (parts : list pystr) : pystr :=
  match parts with
  | [] => []
  | [p] => p
  | p :: ps => p ++ sep ++ join sep ps
  end.

(** [needle in hay] for strings. *)
Fixpoint starts_with (needle hay : pystr) : bool :=
  match needle, hay with
  | [], _ => true
  | _ :: _, [] => false
  | a :: n', b :: h' => (a =? b)%N && starts_with n' h'
  end.

Fixpoint contains (needle hay : pystr) : bool :=
  starts_with needle hay ||
  match hay with
  | [] => false
  | _ :: h' => contains needle h'
  end.

(** *** Decimal numerals: [str(n)] for an [int] *)

Fixpoint digits (d : Decimal.uint) : pystr :=
  match d with
  | Decimal.Nil => []
  | Decimal.D0 d => 48%N :: digits d
  | Decimal.D1 d => 49%N :: digits d
  | Decimal.D2 d => 50%N :: digits d
  | Decimal.D3 d => 51%N :: digits d
  | Decimal.D4 d => 52%N :: digits d
  | Decimal.D5 d => 53%N :: digits d
  | Decimal.D6 d => 54%N :: digits d
  | Decimal.D7 d => 55%N :: digits d
  | Decimal.D8 d => 56%N :: digits d
  | Decimal.D9 d => 57%N :: digits d
  end.

Definition str_of_int (z : Z) : pystr :=
  match Z.to_int z with
  | Decimal.Pos d => digits d
  | Decimal.Neg d => 45%N :: digits d
  end.

(** ** Python values as they come out of [request.get_json()]

    [None], booleans, integers, strings, lists and dicts with string
    keys.  A dict keeps its insertion order and is held as the list of
    its items.  Numbers with a fraction or an exponent (Python floats)
    are not part of the embedding. *)

Inductive value : Type :=
| VNone
| VBool (b : bool)
| VInt (z : Z)
| VStr (s : pystr)
| VList (l : list value)
| VDict (d : list (pystr * value)).

(** [bool(v)]: what [not v] tests. *)
Definition truthy (v : value) : bool :=
  match v with
  | VNone => false
  | VBool b => b
  | VInt z => negb (z =? 0)%Z
  | VStr s => match s with [] => false | _ => true end
  | VList l => match l with [] => false | _ => true end
  | VDict d => match d with [] => false | _ => true end
  end.

(** [isinstance(v, str)]. *)
Definition is_str (v : value) : bool :=
  match v with VStr _ => true | _ => false end.

(** [d.get(key, default)]. *)
Fixpoint dict_get (d : list (pystr * value)) (key : pystr) (default : value) : value :=
  match d with
  | [] => default
  | (k, v) :: d' => if str_eqb k key then v else dict_get d' key default
  end.

(** [key in d]. *)
Definition dict_has (d : list (pystr * value)) (key : pystr) : bool :=
  existsb (fun kv => str_eqb (fst kv) key) d.

(** [d[key] = v]: an existing key keeps its place, a new one goes last. *)
Fixpoint dict_set (d : list (pystr * value)) (key : pystr) (v : value) : list (pystr * value) :=
  match d with
  | [] => [(key, v)]
  | (k, x) :: d' => if str_eqb k key then (k, v) :: d' else (k, x) :: dict_set d' key v
  end.

(** ** [json.dumps] with its default arguments

    After CPython's [json.encoder]: [ensure_ascii=True], the separators
    [", "] and [": "], no indentation, keys in insertion order. *)

Definition hex_digit (d : N) : N :=
  (if d <? 10 then 48 + d else 87 + d)%N.

(** ['{0:04x}'.format(n)] for [n < 0x10000]. *)
Definition hex4 (n : N) : pystr :=
  [hex_digit (N.shiftr n 12 mod 16); hex_digit (N.shiftr n 8 mod 16);
   hex_digit (N.shiftr n 4 mod 16); hex_digit (n mod 16)]%N.

Definition backslash_u (n : N) : pystr := 92%N :: 117%N :: hex4 n.

(** The replacement of one character in [py_encode_basestring_ascii]:
    the entries of [ESCAPE_DCT], printable ASCII unchanged, and
    [\uXXXX] (a surrogate pair above the basic plane) for the rest. *)
Definition escape_char (c : N) : pystr :=
  (if c =? 92 then [92; 92]
   else if c =? 34 then [92; 34]
   else if c =? 8 then [92; 98]
   else if c =? 12 then [92; 102]
   else if c =? 10 then [92; 110]
   else if c =? 13 then [92; 114]
   else if c =? 9 then [92; 116]
   else if (32 <=? c) && (c <=? 126) then [c]
   else if c <? 65536 then backslash_u c
   else
     let n := c - 65536 in
     let s1 := N.lor 55296 (N.land (N.shiftr n 10) 1023) in
     let s2 := N.lor 56320 (N.land n 1023) in
     backslash_u s1 ++ backslash_u s2)%N.

Definition encode_basestring_ascii (s : pystr) : pystr :=
  34%N :: flat_map escape_char s ++ [34%N].

Fixpoint dumps (v : value) : pystr :=
  match v with
  | VNone => lit "null"
  | VBool true => lit "true"
  | VBool false => lit "false"
  | VInt z => str_of_int z
  | VStr s => encode_basestring_ascii s
  | VList l => 91%N :: join (lit ", ") (map dumps l) ++ [93%N]
  | VDict d =>
      123%N ::
      join (lit ", ")
        (map (fun kv => encode_basestring_ascii (fst kv) ++ lit ": " ++ dumps (snd kv)) d)
      ++ [125%N]
  end.

(** ** [json.loads]

    After CPython's [json.decoder] and [json.scanner]: the reader of the
    text that [dumps] writes.  A number with a fraction or an exponent
    would be a float; the reader gives [None] there, as it does where
    CPython raises [JSONDecodeError]. *)

Definition is_ws (c : N) : bool :=
  ((c =? 32) || (c =? 9) || (c =? 10) || (c =? 13))%N.

Fixpoint skip_ws (s : pystr) : pystr :=
  match s with
  | c :: r => if is_ws c then skip_ws r else s
  | [] => []
  end.

Definition hex_val (c : N) : option N :=
  (if (48 <=? c) && (c <=? 57) then Some (c - 48)
   else if (97 <=? c) && (c <=? 102) then Some (c - 87)
   else if (65 <=? c) && (c <=? 70) then Some (c - 55)
   else None)%N.

(** [_decode_uXXXX]: four hexadecimal digits. *)
Definition decode_uXXXX (h1 h2 h3 h4 : N) : option N :=
  match hex_val h1, hex_val h2, hex_val h3, hex_val h4 with
  | Some a, Some b, Some c, Some d => Some (((a * 16 + b) * 16 + c) * 16 + d)%N
  | _, _, _, _ => None
  end.

Definition is_high_surrogate (c : N) : bool := ((55296 <=? c) && (c <=? 56319))%N.
Definition is_low_surrogate (c : N) : bool := ((56320 <=? c) && (c <=? 57343))%N.

(** The [BACKSLASH] table of the decoder. *)
Definition unescape (e : N) : option N :=
  (if e =? 34 then Some 34
   else if e =? 92 then Some 92
   else if e =? 47 then Some 47
   else if e =? 98 then Some 8
   else if e =? 102 then Some 12
   else if e =? 110 then Some 10
   else if e =? 114 then Some 13
   else if e =? 116 then Some 9
   else None)%N.

Definition cons_char (c : N) (r : option (pystr * pystr)) : option (pystr * pystr) :=
  match r with
  | Some (s, rest) => Some (c :: s, rest)
  | None => None
  end.

(** [scanstring] in strict mode, from just after the opening quote: the
    decoded string and the text after the closing quote. *)
Fixpoint scanstring (s : pystr) : option (pystr * pystr) :=
  match s with
  | [] => None
  | c :: r =>
      if (c =? 34)%N then Some ([], r)
      else if (c =? 92)%N then
        match r with
        | [] => None
        | e :: r1 =>
            if (e =? 117)%N then
              match r1 with
              | h1 :: h2 :: h3 :: h4 :: r2 =>
                  match decode_uXXXX h1 h2 h3 h4 with
                  | None => None
                  | Some uni =>
                      match r2 with
                      | b :: u :: g1 :: g2 :: g3 :: g4 :: r3 =>
                          if is_high_surrogate uni && (b =? 92)%N && (u =? 117)%N then
                            match decode_uXXXX g1 g2 g3 g4 with
                            | None => None
                            | Some uni2 =>
                                if is_low_surrogate uni2 then
                                  cons_char
                                    (65536 + N.lor (N.shiftl (uni - 55296) 10) (uni2 - 56320))%N
                                    (scanstring r3)
                                else cons_char uni (scanstring r2)
                            end
                          else cons_char uni (scanstring r2)
                      | _ => cons_char uni (scanstring r2)
                      end
                  end
              | _ => None
              end
            else
              match unescape e with
              | Some ch => cons_char ch (scanstring r1)
              | None => None
              end
        end
      else if (c <? 32)%N then None
      else cons_char c (scanstring r)
  end.

Definition digit_of (c : N) : option (Decimal.uint -> Decimal.uint) :=
  match c with
  | 48%N => Some Decimal.D0
  | 49%N => Some Decimal.D1
  | 50%N => Some Decimal.D2
  | 51%N => Some Decimal.D3
  | 52%N => Some Decimal.D4
  | 53%N => Some Decimal.D5
  | 54%N => Some Decimal.D6
  | 55%N => Some Decimal.D7
  | 56%N => Some Decimal.D8
  | 57%N => Some Decimal.D9
  | _ => None
  end.

Fixpoint read_digits (s : pystr) : Decimal.uint * pystr :=
  match s with
  | [] => (Decimal.Nil, [])
  | c :: r =>
      match digit_of c with
      | Some dn => let (d, rest) := read_digits r in (dn d, rest)
      | None => (Decimal.Nil, s)
      end
  end.

(** The integer part of [NUMBER_RE]: [0], or a digit from 1 to 9 and
    the digits after it. *)
Definition scan_int (s : pystr) : option (Decimal.uint * pystr) :=
  match s with
  | [] => None
  | c :: r =>
      if (c =? 48)%N then Some (Decimal.D0 Decimal.Nil, r)
      else if (49 <=? c)%N && (c <=? 57)%N then Some (read_digits s)
      else None
  end.

(** What follows the integer part starts a fraction or an exponent. *)
Definition float_ahead (s : pystr) : bool :=
  match s with
  | c :: _ => ((c =? 46) || (c =? 101) || (c =? 69))%N
  | [] => false
  end.

Definition scan_number (s : pystr) : option (value * pystr) :=
  let '(neg, s1) :=
    match s with
    | c :: r => if (c =? 45)%N then (true, r) else (false, s)
    | [] => (false, s)
    end in
  match scan_int s1 with
  | Some (d, rest) =>
      if float_ahead rest then None
      else Some (VInt (Z.of_int (if neg then Decimal.Neg d else Decimal.Pos d)), rest)
  | None => None
  end.

(** [dict(pairs)]: a later item with the same key replaces the value. *)
Definition dict_of_items (items : list (pystr * value)) : list (pystr * value) :=
  fold_left (fun d kv => dict_set d (fst kv) (snd kv)) items [].

(** [scan_once], [JSONArray] and [JSONObject].  [fuel] bounds the calls;
    [loads] gives more than the text can use. *)
Fixpoint scan_once (fuel : nat) (s : pystr) : option (value * pystr) :=
  match fuel with
  | O => None
  | S fuel =>
      match s with
      | [] => None
      | c :: r =>
          if (c =? 34)%N then
            match scanstring r with
            | Some (str, rest) => Some (VStr str, rest)
            | None => None
            end
          else if (c =? 123)%N then
            match skip_ws r with
            | [] => None
            | c' :: r' =>
                if (c' =? 125)%N then Some (VDict [], r')
                else
                  match JSONObject fuel (c' :: r') with
                  | Some (items, rest) => Some (VDict (dict_of_items items), rest)
                  | None => None
                  end
            end
          else if (c =? 91)%N then
            match skip_ws r with
            | [] => None
            | c' :: r' =>
                if (c' =? 93)%N then Some (VList [], r')
                else
                  match JSONArray fuel (c' :: r') with
                  | Some (l, rest) => Some (VList l, rest)
                  | None => None
                  end
            end
          else if starts_with (lit "null") s then Some (VNone, skipn 4 s)
          else if starts_with (lit "true") s then Some (VBool true, skipn 4 s)
          else if starts_with (lit "false") s then Some (VBool false, skipn 5 s)
          else scan_number s
      end
  end

with JSONArray (fuel : nat) (s : pystr) : option (list value * pystr) :=
  match fuel with
  | O => None
  | S fuel =>
      match scan_once fuel s with
      | None => None
      | Some (v, rest) =>
          match skip_ws rest with
          | [] => None
          | c :: r =>
              if (c =? 93)%N then Some ([v], r)
              else if (c =? 44)%N then
                match JSONArray fuel (skip_ws r) with
                | Some (l, rest') => Some (v :: l, rest')
                | None => None
                end
              else None
          end
      end
  end

with JSONObject (fuel : nat) (s : pystr) : option (list (pystr * value) * pystr) :=
  match fuel with
  | O => None
  | S fuel =>
      match s with
      | [] => None
      | q :: r =>
          if (q =? 34)%N then
            match scanstring r with
            | None => None
            | Some (key, rest) =>
                match skip_ws rest with
                | [] => None
                | c1 :: r1 =>
                    if (c1 =? 58)%N then
                      match scan_once fuel (skip_ws r1) with
                      | None => None
                      | Some (v, rest2) =>
                          match skip_ws rest2 with
                          | [] => None
                          | c2 :: r2 =>
                              if (c2 =? 125)%N then Some ([(key, v)], r2)
                              else if (c2 =? 44)%N then
                                match JSONObject fuel (skip_ws r2) with
                                | Some (items, rest') => Some ((key, v) :: items, rest')
                                | None => None
                                end
                              else None
                          end
                      end
                    else None
                end
            end
          else None
      end
  end.

Definition loads (s : pystr) : option value :=
  match scan_once (S (List.length s)) (skip_ws s) with
  | Some (v, rest) =>
      match skip_ws rest with
      | [] => Some v
      | _ :: _ => None
      end
  | None => None
  end.

(** The values the decoder can give: code points in Unicode's range, no
    high surrogate directly before a low one (the decoder joins such a
    pair into one character), and no key twice in a dict. *)
Fixpoint str_ok (s : pystr) : bool :=
  match s with
  | [] => true
  | c :: r =>
      (c <? 1114112)%N
      && negb (is_high_surrogate c && match r with c2 :: _ => is_low_surrogate c2 | [] => false end)
      && str_ok r
  end.

Fixpoint distinct {A : Type} (eqb : A -> A -> bool) (l : list A) : bool :=
  match l with
  | [] => true
  | x :: l' => negb (existsb (eqb x) l') && distinct eqb l'
  end.

Fixpoint decoded (v : value) : bool :=
  match v with
  | VNone | VBool _ | VInt _ => true
  | VStr s => str_ok s
  | VList l => forallb decoded l
  | VDict d =>
      distinct str_eqb (map fst d)
      && forallb (fun kv => str_ok (fst kv) && decoded (snd kv)) d
  end.

(** ** [str(v)] and [template.format(v)]

    [repr] of a string quotes it and escapes the quote, the backslash
    and control characters.  Above ASCII Python consults the Unicode
    database for what is printable; here such characters are kept as
    they are. *)

Definition hex2 (n : N) : pystr :=
  [hex_digit (N.shiftr n 4 mod 16); hex_digit (n mod 16)]%N.

Definition repr_char (quote c : N) : pystr :=
  (if (c =? quote) || (c =? 92) then [92; c]
   else if c =? 9 then [92; 116]
   else if c =? 10 then [92; 110]
   else if c =? 13 then [92; 114]
   else if (c <? 32) || (c =? 127) then 92 :: 120 :: hex2 c
   else [c])%N.

Definition repr_str (s : pystr) : pystr :=
  let quote :=
    if existsb (N.eqb 39) s && negb (existsb (N.eqb 34) s) then 34%N else 39%N in
  quote :: flat_map (repr_char quote) s ++ [quote].

Fixpoint repr (v : value) : pystr :=
  match v with
  | VNone => lit "None"
  | VBool true => lit "True"
  | VBool false => lit "False"
  | VInt z => str_of_int z
  | VStr s => repr_str s
  | VList l => 91%N :: join (lit ", ") (map repr l) ++ [93%N]
  | VDict d =>
      123%N :: join (lit ", ") (map (fun kv => repr_str (fst kv) ++ lit ": " ++ repr (snd kv)) d)
      ++ [125%N]
  end.

Definition str (v : value) : pystr :=
  match v with
  | VStr s => s
  | _ => repr v
  end.

(** [template.format(v)] for a template with the one field [{}]; a
    template without a field is returned as it is. *)
Fixpoint format (template : pystr) (v : value) : pystr :=
  match template with
  | [] => []
  | c :: t =>
      match t with
      | c' :: t' =>
          if ((c =? 123) && (c' =? 125))%N then str v ++ t' else c :: format t v
      | [] => [c]
      end
  end.

(** ** Handlers as state transformers that may raise *)

Inductive exn : Type :=
| PersistenceFailure
| TypeError
| AttributeError.

Inductive outcome (A : Type) : Type :=
| Returned (a : A)
| Raised (e : exn).

Arguments Returned {A} a.
Arguments Raised {A} e.

Definition M (S A : Type) : Type := S -> outcome A * S.

Definition ret {S A : Type} (a : A) : M S A := fun s => (Returned a, s).

Definition raise {S A : Type} (e : exn) : M S A := fun s => (Raised e, s).

Definition bind {S A B : Type} (m : M S A) (k : A -> M S B) : M S B :=
  fun s =>
    match m s with
    | (Returned a, s') => k a s'
    | (Raised e, s') => (Raised e, s')
    end.

Definition gets {S A : Type} (f : S -> A) : M S A := fun s => (Returned (f s), s).

Definition modify {S : Type} (f : S -> S) : M S unit := fun s => (Returned tt, f s).

Declare Scope handler_scope.
Delimit Scope handler_scope with handler.
Notation "x <- m ;; k" := (bind m (fun x => k))
  (at level 100, m at next level, right associativity) : handler_scope.
Notation "m ;;; k" := (bind m (fun _ => k))
  (at level 100, right associativity) : handler_scope.
Open Scope handler_scope.

Definition opt_Z_eqb (a b : option Z) : bool :=
  match a, b with
  | Some x, Some y => (x =? y)%Z
  | None, None => true
  | _, _ => false
  end.

(** ** The ORM layer [pytaskmanager.server.db]

    The module is imported by the resource file and is not part of it.
    Its classes are held as records, its tables as lists of rows in
    insertion order, and a commit as an operation that can fail: the
    head of [faults] tells whether the next commit raises. *)

Module db.

Record Node : Type := {
  Node_id : Z;
  Node_name : pystr
}.

Record Collaboration : Type := {
  Collaboration_id : Z;
  Collaboration_name : pystr;
  Collaboration_nodes : list Node
}.

(** [Task_id] is [None] until the first save, as in the ORM. *)
Record Task : Type := {
  Task_id : option Z;
  Task_collaboration_id : Z;
  Task_name : value;
  Task_description : value;
  Task_image : value;
  Task_input : value;
  Task_status : pystr
}.

Record TaskResult : Type := {
  TaskResult_id : option Z;
  TaskResult_task_id : option Z;
  TaskResult_node_id : Z
}.

Record Store : Type := {
  tasks : list Task;
  results : list TaskResult;
  collaborations : list Collaboration;
  next_task_id : Z;
  next_result_id : Z;
  faults : list bool
}.

(** What [db.Task.get] gives back: [None], one object, or a list. *)
Inductive found : Type :=
| NoRow
| Row (t : Task)
| Rows (l : list Task).

(** [bool(x)] for such a result: an empty list is false like [None]. *)
Definition found_truthy (x : found) : bool :=
  match x with
  | NoRow => false
  | Row _ => true
  | Rows l => match l with [] => false | _ :: _ => true end
  end.

Definition has_id (i : Z) (t : Task) : bool := opt_Z_eqb (Task_id t) (Some i).

(** Modelled from the spec: [db.Task.get], declared in the absent [db]
    module.  With an id it gives the task of that id or nothing; without
    one, the full collection of tasks. *)
Definition Task_get (id : option Z) : M Store found :=
  gets (fun st =>
    match id with
    | None => Rows (tasks st)
    | Some i =>
        match find (has_id i) (tasks st) with
        | Some t => Row t
        | None => NoRow
        end
    end).

(** Modelled from the spec: [db.Collaboration.get], declared in the
    absent [db] module: [resolve(collaboration_id)] gives the
    collaboration of that id or nothing.  The ids of the directory are
    integers, so a value of another type resolves to nothing. *)
Definition Collaboration_get (id : value) : M Store (option Collaboration) :=
  gets (fun st =>
    match id with
    | VInt i => find (fun c => (Collaboration_id c =? i)%Z) (collaborations st)
    | _ => None
    end).

(** [db.Task(collaboration=collaboration)]. *)
Definition Task_new (c : Collaboration) : Task :=
  {| Task_id := None;
     Task_collaboration_id := Collaboration_id c;
     Task_name := VNone;
     Task_description := VNone;
     Task_image := VNone;
     Task_input := VNone;
     Task_status := [] |}.

(** [db.TaskResult(task=task, node=node)]: a new object attached to the
    task through the relationship and written by the task's next save. *)
Definition TaskResult_new (t : Task) (n : Node) : TaskResult :=
  {| TaskResult_id := None;
     TaskResult_task_id := Task_id t;
     TaskResult_node_id := Node_id n |}.

Definition set_name (v : value) (t : Task) : Task :=
  {| Task_id := Task_id t; Task_collaboration_id := Task_collaboration_id t;
     Task_name := v; Task_description := Task_description t;
     Task_image := Task_image t; Task_input := Task_input t;
     Task_status := Task_status t |}.

Definition set_description (v : value) (t : Task) : Task :=
  {| Task_id := Task_id t; Task_collaboration_id := Task_collaboration_id t;
     Task_name := Task_name t; Task_description := v;
     Task_image := Task_image t; Task_input := Task_input t;
     Task_status := Task_status t |}.

Definition set_image (v : value) (t : Task) : Task :=
  {| Task_id := Task_id t; Task_collaboration_id := Task_collaboration_id t;
     Task_name := Task_name t; Task_description := Task_description t;
     Task_image := v; Task_input := Task_input t;
     Task_status := Task_status t |}.

Definition set_input (v : value) (t : Task) : Task :=
  {| Task_id := Task_id t; Task_collaboration_id := Task_collaboration_id t;
     Task_name := Task_name t; Task_description := Task_description t;
     Task_image := Task_image t; Task_input := v;
     Task_status := Task_status t |}.

Definition set_status (v : pystr) (t : Task) : Task :=
  {| Task_id := Task_id t; Task_collaboration_id := Task_collaboration_id t;
     Task_name := Task_name t; Task_description := Task_description t;
     Task_image := Task_image t; Task_input := Task_input t;
     Task_status := v |}.

Fixpoint assign_ids (next : Z) (l : list TaskResult) : list TaskResult :=
  match l with
  | [] => []
  | r :: l' =>
      {| TaskResult_id := Some next;
         TaskResult_task_id := TaskResult_task_id r;
         TaskResult_node_id := TaskResult_node_id r |}
      :: assign_ids (next + 1) l'
  end.

Definition with_id (i : Z) (t : Task) : Task :=
  {| Task_id := Some i;
     Task_collaboration_id := Task_collaboration_id t;
     Task_name := Task_name t;
     Task_description := Task_description t;
     Task_image := Task_image t;
     Task_input := Task_input t;
     Task_status := Task_status t |}.

(** The commit of a save or delete: it raises when the next fault is set
    and writes nothing then. *)
Definition commit (write : Store -> Store) : M Store unit :=
  fun st =>
    match faults st with
    | true :: fs =>
        (Raised PersistenceFailure,
         {| tasks := tasks st; results := results st; collaborations := collaborations st;
            next_task_id := next_task_id st; next_result_id := next_result_id st;
            faults := fs |})
    | _ =>
        let st' := write st in
        (Returned tt,
         {| tasks := tasks st'; results := results st'; collaborations := collaborations st';
            next_task_id := next_task_id st'; next_result_id := next_result_id st';
            faults := tl (faults st) |})
    end.

(** Modelled from the spec: [task.save()], declared in the absent [db]
    module.  One commit writes the task (a new row with the next id when
    the object has none, else its row in place) and the [attached]
    results that were created for it since the last save. *)
Definition Task_save (t : Task) (attached : list TaskResult) : M Store Task :=
  st0 <- gets (fun st => st) ;;
  let t' :=
    match Task_id t with
    | None => with_id (next_task_id st0) t
    | Some _ => t
    end in
  commit (fun st =>
    {| tasks :=
         match Task_id t with
         | None => tasks st ++ [t']
         | Some i => map (fun row => if has_id i row then t else row) (tasks st)
         end;
       results := results st ++ assign_ids (next_result_id st) attached;
       collaborations := collaborations st;
       next_task_id :=
         match Task_id t with
         | None => next_task_id st + 1
         | Some _ => next_task_id st
         end;
       next_result_id := next_result_id st + Z.of_nat (List.length attached);
       faults := faults st |}) ;;;
  ret t'.

(** [task.delete()], declared in the absent [db] module.  The handler
    that calls it notes (line 125) that the corresponding results are
    not deleted with the task: the commit removes the row of the task
    and leaves the table of results as it is. *)
Definition Task_delete (t : Task) : M Store unit :=
  commit (fun st =>
    {| tasks := filter (fun row => negb (opt_Z_eqb (Task_id row) (Task_id t))) (tasks st);
       results := results st;
       collaborations := collaborations st;
       next_task_id := next_task_id st;
       next_result_id := next_result_id st;
       faults := faults st |}).

(** The rows of the table of results that reference task [i]. *)
Definition results_for (i : Z) (st : Store) : list TaskResult :=
  filter (fun r => opt_Z_eqb (TaskResult_task_id r) (Some i)) (results st).

(** [task.results]: the relationship, read from the table. *)
Definition Task_results (t : Task) : M Store (list TaskResult) :=
  gets (fun st =>
    match Task_id t with
    | Some i => results_for i st
    | None => []
    end).

End db.

(** ** The schemas of [._schema]

    Modelled from the spec: [TaskSchema] and [TaskIncludedSchema] are
    declared in the absent [_schema] module.  The view of a task embeds
    its results iff the schema is the including one; [many] switches
    from one object to a list of objects. *)

Inductive schema : Type :=
| TaskSchema
| TaskIncludedSchema.

Record TaskView : Type := {
  view_task : db.Task;
  view_results : option (list db.TaskResult)
}.

Inductive dumped : Type :=
| One (v : TaskView)
| Many (l : list TaskView).

Definition view (s : schema) (st : db.Store) (t : db.Task) : TaskView :=
  {| view_task := t;
     view_results :=
       match s with
       | TaskSchema => None
       | TaskIncludedSchema =>
           Some (match db.Task_id t with
                 | Some i => db.results_for i st
                 | None => []
                 end)
       end |}.

(** [s.dump(obj, many=many)].  With [many] set the object is iterated,
    which raises for a single task. *)
Definition dump (s : schema) (obj : db.found) (many : bool) : M db.Store dumped :=
  fun st =>
    match obj, many with
    | db.Row t, false => (Returned (One (view s st t)), st)
    | db.Rows l, true => (Returned (Many (map (view s st) l)), st)
    | db.NoRow, _ => (Raised TypeError, st)
    | db.Row _, true => (Raised TypeError, st)
    | db.Rows _, false => (Raised AttributeError, st)
    end.

(** ** The world of a request: the store and the events sent so far *)

Record Event : Type := {
  Event_name : pystr;
  Event_payload : option Z;
  Event_room : pystr;
  Event_namespace : pystr
}.

Record World : Type := {
  store : db.Store;
  emitted : list Event
}.

Definition in_db {A : Type} (m : M db.Store A) : M World A :=
  fun w =>
    let (r, st) := m (store w) in
    (r, {| store := st; emitted := emitted w |}).

(** [socketio.emit(event, payload, room=room, namespace=namespace)]. *)
Definition socketio_emit (event : pystr) (payload : option Z) (room namespace : pystr)
  : M World unit :=
  modify (fun w =>
    {| store := store w;
       emitted := emitted w ++
         [{| Event_name := event; Event_payload := payload;
             Event_room := room; Event_namespace := namespace |}] |}).

(** ** Responses *)

Inductive HTTPStatus : Type :=
| OK
| BAD_REQUEST
| NOT_FOUND.

Definition status_code (s : HTTPStatus) : Z :=
  match s with
  | OK => 200
  | BAD_REQUEST => 400
  | NOT_FOUND => 404
  end.

Definition client_error (s : HTTPStatus) : bool :=
  ((400 <=? status_code s) && (status_code s <? 500))%Z.

Inductive body : Type :=
| Msg (msg : pystr)
| Dumped (d : dumped)
| ResultList (l : list db.TaskResult).

Definition response : Type := (body * HTTPStatus)%type.

(** [request.args.get('include') == 'results']. *)
Definition include_results (include : option pystr) : bool :=
  match include with
  | Some i => str_eqb i (lit "results")
  | None => false
  end.

(** ** The resource [Task]: [/api/task] and [/api/task/<int:id>] *)

Module Task.

(** [get(self, id=None)]; [include] is [request.args.get('include')]. *)
Definition get (id : option Z) (include : option pystr) : M World response :=
  task <- in_db (db.Task_get id) ;;
  if negb (db.found_truthy task) then
    ret (Msg (lit "task id={} is not found"), NOT_FOUND)
  else
    let s := if include_results include then TaskIncludedSchema else TaskSchema in
    let not_id :=
      match id with
      | None => true
      | Some i => (i =? 0)%Z
      end in
    d <- in_db (dump s task not_id) ;;
    ret (Dumped d, OK).

(** [post(self)]; [data] is [request.get_json()], a JSON object.  The
    logging calls have no part in the result and are left out. *)
Definition post (data : list (pystr * value)) : M World response :=
  let collaboration_id := dict_get data (lit "collaboration_id") VNone in
  if negb (truthy collaboration_id) then
    ret (Msg (lit "JSON should contain 'collaboration_id'"), BAD_REQUEST)
  else
    collaboration <- in_db (db.Collaboration_get collaboration_id) ;;
    match collaboration with
    | None =>
        ret (Msg (format (lit "collaboration id={} not found") collaboration_id), NOT_FOUND)
    | Some collaboration =>
        let task := db.Task_new collaboration in
        let task := db.set_name (dict_get data (lit "name") (VStr [])) task in
        let task := db.set_description (dict_get data (lit "description") (VStr [])) task in
        let task := db.set_image (dict_get data (lit "image") (VStr [])) task in
        let input_ := dict_get data (lit "input") (VStr []) in
        let input_ := if negb (is_str input_) then VStr (dumps input_) else input_ in
        let task := db.set_input input_ task in
        let task := db.set_status (lit "open") task in
        task <- in_db (db.Task_save task []) ;;
        (* a collaboration can include multiple nodes *)
        let attached :=
          map (db.TaskResult_new task) (db.Collaboration_nodes collaboration) in
        task <- in_db (db.Task_save task attached) ;;
        (* if the node is connected send a socket message that there
           is a new task available *)
        socketio_emit (lit "new_task") (db.Task_id task)
          (lit "collaboration_" ++ str_of_int (db.Task_collaboration_id task))
          (lit "/tasks") ;;;
        (* the source returns the dump without a status: the framework
           answers 200 *)
        d <- in_db (dump TaskSchema (db.Row task) false) ;;
        ret (Dumped d, OK)
    end.

(** [delete(self, id)]. *)
Definition delete (id : Z) : M World response :=
  task <- in_db (db.Task_get (Some id)) ;;
  if negb (db.found_truthy task) then
    ret (Msg (format (lit "task id={} not found") (VInt id)), NOT_FOUND)
  else
    match task with
    | db.Row t => in_db (db.Task_delete t)
    | _ => raise AttributeError
    end ;;;
    ret (Msg (format (lit "task id={} successfully deleted") (VInt id)), OK).

End Task.

(** ** The resource [TaskResult]: [/api/task/<int:id>/result] *)

Module TaskResult.

(** [get(self, id)]. *)
Definition get (id : Z) : M World response :=
  task <- in_db (db.Task_get (Some id)) ;;
  if negb (db.found_truthy task) then
    ret (Msg (format (lit "task id={} not found") (VInt id)), NOT_FOUND)
  else
    results <-
      match task with
      | db.Row t => in_db (db.Task_results t)
      | _ => raise AttributeError
      end ;;
    ret (ResultList results, OK).

End TaskResult.

(** ** [setup]: the routes of the module

    [api.add_resource(resource, path, endpoint=..., methods=...)] adds a
    rule to the rules of [api]; the call to the logger is left out. *)

Inductive method : Type :=
| GET
| POST
| DELETE.

Inductive resource : Type :=
| TaskResource
| TaskResultResource.

Record rule : Type := {
  rule_resource : resource;
  rule_path : pystr;
  rule_endpoint : pystr;
  rule_methods : list method
}.

(** [__name__.split('.')[-1]] for the module [pytaskmanager.server.resource.task]. *)
Definition module_name : pystr := lit "task".

Definition add_resource (api : list rule) (r : resource) (path endpoint : pystr)
  (methods : list method) : list rule :=
  api ++ [{| rule_resource := r; rule_path := path; rule_endpoint := endpoint;
             rule_methods := methods |}].

Definition setup (api : list rule) (API_BASE : pystr) : list rule :=
  let path := join (lit "/") [API_BASE; module_name] in
  let api := add_resource api TaskResource path (lit "task_without_id") [GET; POST] in
  let api :=
    add_resource api TaskResource (path ++ lit "/<int:id>") (lit "task_with_id")
      [GET; DELETE] in
  add_resource api TaskResultResource (path ++ lit "/<int:id>/result") (lit "task_result")
    [GET].

(** ** Consistent stores

    What the handlers keep true of the store: ids are given out from 1
    upwards, so the ids of the tasks, and the task ids the results
    reference, are positive and below the next id to give out; no two
    results have the same task and node; and the nodes of a
    collaboration are a set. *)

Definition id_below (bound : Z) (id : option Z) : bool :=
  match id with
  | Some i => ((0 <? i) && (i <? bound))%Z
  | None => false
  end.

Definition pair_key (r : db.TaskResult) : option Z * Z :=
  (db.TaskResult_task_id r, db.TaskResult_node_id r).

Definition key_eqb (a b : option Z * Z) : bool :=
  opt_Z_eqb (fst a) (fst b) && (snd a =? snd b)%Z.

Definition consistent (st : db.Store) : bool :=
  (0 <? db.next_task_id st)%Z
  && forallb (fun t => id_below (db.next_task_id st) (db.Task_id t)) (db.tasks st)
  && forallb (fun r => id_below (db.next_task_id st) (db.TaskResult_task_id r)) (db.results st)
  && distinct key_eqb (map pair_key (db.results st))
  && forallb (fun c => distinct Z.eqb (map db.Node_id (db.Collaboration_nodes c)))
       (db.collaborations st).

(** The outcome of the [k]-th commit from now on. *)
Definition fault_at (k : nat) (w : World) : bool := nth k (db.faults (store w)) false.

(** The directory of collaborations replaced (membership changes are
    made by other resources). *)
Definition with_collaborations (cs : list db.Collaboration) (w : World) : World :=
  {| store :=
       {| db.tasks := db.tasks (store w);
          db.results := db.results (store w);
          db.collaborations := cs;
          db.next_task_id := db.next_task_id (store w);
          db.next_result_id := db.next_result_id (store w);
          db.faults := db.faults (store w) |};
     emitted := emitted w |}.

(** *** A small world to run the handlers in *)

Definition node1 : db.Node := {| db.Node_id := 1; db.Node_name := lit "n1" |}.
Definition node2 : db.Node := {| db.Node_id := 2; db.Node_name := lit "n2" |}.

Definition collaboration7 : db.Collaboration :=
  {| db.Collaboration_id := 7;
     db.Collaboration_name := lit "C";
     db.Collaboration_nodes := [node1; node2] |}.

Definition collaboration8 : db.Collaboration :=
  {| db.Collaboration_id := 8;
     db.Collaboration_name := lit "empty";
     db.Collaboration_nodes := [] |}.

Definition world0 (faults : list bool) : World :=
  {| store :=
       {| db.tasks := [];
          db.results := [];
          db.collaborations := [collaboration7; collaboration8];
          db.next_task_id := 1;
          db.next_result_id := 1;
          db.faults := faults |};
     emitted := [] |}.

Definition payload7 : list (pystr * value) :=
  [(lit "collaboration_id", VInt 7); (lit "name", VStr (lit "x"));
   (lit "input", VDict [(lit "a", VInt 1)])].

Definition payload8 : list (pystr * value) :=
  [(lit "collaboration_id", VInt 8); (lit "input", VStr (lit "raw"))].

(** The world after the task of [payload7] was created in [world0 []]. *)
Definition world1 : World := snd (Task.post payload7 (world0 [])).

(** *** Names for what [post] builds

    The task object as [post] has set it up before the first save, the
    row it becomes, the results made for the nodes, and the event. *)

Definition drafted (data : list (pystr * value)) (c : db.Collaboration) : db.Task :=
  let input_ := dict_get data (lit "input") (VStr []) in
  db.set_status (lit "open")
    (db.set_input (if negb (is_str input_) then VStr (dumps input_) else input_)
       (db.set_image (dict_get data (lit "image") (VStr []))
          (db.set_description (dict_get data (lit "description") (VStr []))
             (db.set_name (dict_get data (lit "name") (VStr [])) (db.Task_new c))))).

Definition created (data : list (pystr * value)) (c : db.Collaboration) (w : World) : db.Task :=
  db.with_id (db.next_task_id (store w)) (drafted data c).

Definition fan_out (data : list (pystr * value)) (c : db.Collaboration) (w : World)
  : list db.TaskResult :=
  db.assign_ids (db.next_result_id (store w))
    (map (db.TaskResult_new (created data c w)) (db.Collaboration_nodes c)).

Definition new_task_event (t : db.Task) : Event :=
  {| Event_name := lit "new_task";
     Event_payload := db.Task_id t;
     Event_room := lit "collaboration_" ++ str_of_int (db.Task_collaboration_id t);
     Event_namespace := lit "/tasks" |}.

(** What [db.Collaboration.get] finds in the world. *)
Definition resolve (id : value) (w : World) : option db.Collaboration :=
  match fst (db.Collaboration_get id (store w)) with
  | Returned c => c
  | Raised _ => None
  end.

(** The status of a response, when the handler returned one. *)
Definition status_of (r : outcome response) : option HTTPStatus :=
  match r with
  | Returned (_, s) => Some s
  | Raised _ => None
  end.

(** *** Names used in the proof that [loads] reads back what [dumps] wrote *)

Local Open Scope N_scope.

(** The text ahead is a [\u] escape of a low surrogate (or of no
    number at all): what [scanstring] looks for after a high
    surrogate. *)
Definition low_ahead (s : pystr) : bool :=
  match s with
  | b :: u :: r =>
      (b =? 92) && (u =? 117) &&
      match r with
      | g1 :: g2 :: g3 :: g4 :: _ =>
          match decode_uXXXX g1 g2 g3 g4 with
          | Some uni2 => is_low_surrogate uni2
          | None => true
          end
      | _ => false
      end
  | _ => false
  end.

(** The text after a number does not continue it: no digit, and no
    fraction or exponent mark. *)
Definition number_end (rest : pystr) : bool :=
  match rest with
  | [] => true
  | c :: _ =>
      match digit_of c with
      | Some _ => false
      | None => negb ((c =? 46) || (c =? 101) || (c =? 69))
      end
  end.

(** How a text that [dumps] wrote begins. *)
Definition value_start (c : N) : Prop :=
  is_ws c = false /\ c <> 93 /\ c <> 125 /\ c <> 44 /\ c <> 58.

(** The text of one item of a dict. *)
Definition item (kv : pystr * value) : pystr :=
  encode_basestring_ascii (fst kv) ++ lit ": " ++ dumps (snd kv).

(** [scan_once] reads [v] back from the front of any text that begins
    with [dumps v], given fuel for the length of it. *)
Definition round_trips (v : value) : Prop :=
  decoded v = true ->
  forall fuel rest,
    (List.length (dumps v) <= fuel)%nat -> number_end rest = true ->
    scan_once fuel (dumps v ++ rest) = Some (v, rest).

(** A printable ASCII character, from the space to the tilde. *)
Definition printable (c : N) : bool := (32 <=? c) && (c <=? 126).

Local Close Scope N_scope.

(** * Properties *)

Example dumps_object :
  dumps (VDict [(lit "a", VInt 1); (lit "b", VList [VBool true; VNone; VInt (-20)])])
  = [123; 34; 97; 34]%N ++ lit ": 1, " ++ [34; 98; 34]%N ++ lit ": [true, null, -20]}".
Proof. reflexivity. Qed.

Example loads_object :
  loads ([123; 34; 97; 34]%N ++ lit " : 1 , " ++ [34; 98; 34]%N ++ lit ": [true, null , -20 ] } ")
  = Some (VDict [(lit "a", VInt 1); (lit "b", VList [VBool true; VNone; VInt (-20)])]).
Proof. vm_compute. reflexivity. Qed.

Example loads_escapes :
  loads ([34; 92; 117]%N ++ lit "d83d" ++ [92; 117]%N ++ lit "DE00" ++ [92; 110; 233; 34]%N)
  = Some (VStr [128512; 10; 233]%N).
Proof. vm_compute. reflexivity. Qed.

Example dumps_escapes :
  dumps (VStr [128512; 10; 233; 34; 127]%N)
  = [34; 92; 117]%N ++ lit "d83d" ++ [92; 117]%N ++ lit "de00" ++ [92; 110; 92; 117]%N ++ lit "00e9"
    ++ [92; 34; 92; 117]%N ++ lit "007f" ++ [34]%N.
Proof. vm_compute. reflexivity. Qed.

(** ** [loads] reads back what [dumps] wrote *)

Local Open Scope N_scope.

(** *** Strings *)

Lemma hex_val_digit (d : N) : d < 16 -> hex_val (hex_digit d) = Some d.
Proof.
  intros H. unfold hex_val, hex_digit.
  destruct (N.ltb_spec d 10).
  - replace ((48 <=? 48 + d) && (48 + d <=? 57)) with true.
    + f_equal. lia.
    + symmetry. apply andb_true_iff. split; apply N.leb_le; lia.
  - replace ((48 <=? 87 + d) && (87 + d <=? 57)) with false.
    + replace ((97 <=? 87 + d) && (87 + d <=? 102)) with true.
      * f_equal. lia.
      * symmetry. apply andb_true_iff. split; apply N.leb_le; lia.
    + symmetry. apply andb_false_iff. right. apply N.leb_gt. lia.
Qed.

Lemma hex_arith (n : N) : n < 65536 ->
  (((n / 4096) mod 16 * 16 + (n / 256) mod 16) * 16 + (n / 16) mod 16) * 16 +
  n mod 16 = n.
Proof.
  intros H.
  change 4096 with (16 * 16 * 16). change 256 with (16 * 16).
  rewrite <- !N.Div0.div_div.
  assert (H3 : n / 16 / 16 / 16 < 16)
    by (do 3 apply N.Div0.div_lt_upper_bound; exact H).
  rewrite (N.mod_small _ _ H3).
  pose proof (N.Div0.div_mod n 16) as E1.
  pose proof (N.Div0.div_mod (n / 16) 16) as E2.
  pose proof (N.Div0.div_mod (n / 16 / 16) 16) as E3.
  lia.
Qed.

(** The four digits [hex4] writes decode to the number. *)
Lemma decode_hex4 (n : N) : n < 65536 ->
  decode_uXXXX (hex_digit (N.shiftr n 12 mod 16)) (hex_digit (N.shiftr n 8 mod 16))
    (hex_digit (N.shiftr n 4 mod 16)) (hex_digit (n mod 16)) = Some n.
Proof.
  intros H. unfold decode_uXXXX.
  rewrite !hex_val_digit by (apply N.mod_lt; discriminate).
  rewrite !N.shiftr_div_pow2.
  change (2 ^ 12) with 4096. change (2 ^ 8) with 256. change (2 ^ 4) with 16.
  f_equal. apply hex_arith, H.
Qed.

(** A [\u] escape that is not the first half of a surrogate pair gives
    one character. *)
Lemma scan_u_single (uni h1 h2 h3 h4 : N) (tail : pystr) :
  decode_uXXXX h1 h2 h3 h4 = Some uni ->
  is_high_surrogate uni && low_ahead tail = false ->
  scanstring (92 :: 117 :: h1 :: h2 :: h3 :: h4 :: tail) = cons_char uni (scanstring tail).
Proof.
  intros Hd Hp. cbn [scanstring]. cbn [N.eqb Pos.eqb]. rewrite Hd.
  destruct tail as [|b [|u [|g1 [|g2 [|g3 [|g4 r3]]]]]]; try reflexivity.
  unfold low_ahead in Hp.
  destruct (is_high_surrogate uni); [|reflexivity].
  destruct (b =? 92); [|reflexivity]. destruct (u =? 117); [|reflexivity].
  cbn [andb] in *. destruct (decode_uXXXX g1 g2 g3 g4) as [uni2|]; [|discriminate].
  rewrite Hp. reflexivity.
Qed.

(** Bits below position 10 and bits from position 10 on do not
    overlap. *)
Lemma lor_shiftl_low (a b : N) : b < 1024 -> N.lor (N.shiftl a 10) b = a * 1024 + b.
Proof.
  intros Hb.
  assert (H0 : N.land (N.shiftl a 10) b = 0).
  { apply N.bits_inj. intros k. rewrite N.land_spec, N.bits_0.
    destruct (N.ltb_spec k 10) as [Hk|Hk].
    - rewrite N.shiftl_spec_low by exact Hk. reflexivity.
    - replace (N.testbit b k) with false; [apply andb_false_r|].
      symmetry. destruct (N.eq_dec b 0) as [->|Hnz]; [apply N.bits_0|].
      apply N.bits_above_log2. apply N.log2_lt_pow2; [lia|].
      apply N.lt_le_trans with (2 ^ 10); [exact Hb|].
      apply N.pow_le_mono_r; [discriminate|exact Hk]. }
  rewrite <- N.lxor_lor by exact H0. rewrite <- N.add_nocarry_lxor by exact H0.
  rewrite N.shiftl_mul_pow2. reflexivity.
Qed.

(** The two halves the encoder writes for a character above the basic
    plane. *)
Lemma surrogates (c : N) :
  65536 <= c < 1114112 ->
  N.lor 55296 (N.land (N.shiftr (c - 65536) 10) 1023) = 55296 + (c - 65536) / 1024
  /\ N.lor 56320 (N.land (c - 65536) 1023) = 56320 + (c - 65536) mod 1024.
Proof.
  intros H. change 1023 with (N.ones 10). rewrite !N.land_ones, N.shiftr_div_pow2.
  change (2 ^ 10) with 1024.
  change 55296 with (N.shiftl 54 10). change 56320 with (N.shiftl 55 10).
  rewrite !lor_shiftl_low by (apply N.mod_lt; discriminate).
  change (N.shiftl 54 10) with 55296. change (N.shiftl 55 10) with 56320.
  split; [|reflexivity].
  rewrite N.mod_small; [reflexivity|].
  zify. Z.to_euclidean_division_equations. lia.
Qed.

Lemma join_surrogates (c : N) :
  65536 <= c < 1114112 ->
  65536 + N.lor (N.shiftl (55296 + (c - 65536) / 1024 - 55296) 10)
            (56320 + (c - 65536) mod 1024 - 56320) = c.
Proof.
  intros H.
  rewrite (N.add_comm 55296), (N.add_comm 56320), !N.add_sub.
  rewrite lor_shiftl_low by (apply N.mod_lt; discriminate).
  zify. Z.to_euclidean_division_equations. lia.
Qed.

(** The decoder joins the two halves into the character again. *)
Lemma scan_u_pair (c : N) (tail : pystr) :
  65536 <= c < 1114112 ->
  scanstring (backslash_u (N.lor 55296 (N.land (N.shiftr (c - 65536) 10) 1023))
              ++ backslash_u (N.lor 56320 (N.land (c - 65536) 1023)) ++ tail)
  = cons_char c (scanstring tail).
Proof.
  intros H. destruct (surrogates c H) as [-> ->].
  assert (H1 : 55296 + (c - 65536) / 1024 < 65536)
    by (zify; Z.to_euclidean_division_equations; lia).
  assert (H1' : 55296 + (c - 65536) / 1024 <= 56319)
    by (zify; Z.to_euclidean_division_equations; lia).
  assert (H2 : 56320 + (c - 65536) mod 1024 <= 57343)
    by (zify; Z.to_euclidean_division_equations; lia).
  unfold backslash_u, hex4. cbn [app scanstring]. cbn [N.eqb Pos.eqb].
  rewrite (decode_hex4 _ H1), decode_hex4 by (zify; Z.to_euclidean_division_equations; lia).
  replace (is_high_surrogate (55296 + (c - 65536) / 1024)) with true
    by (symmetry; apply andb_true_iff; split; apply N.leb_le;
        zify; Z.to_euclidean_division_equations; lia).
  replace (is_low_surrogate (56320 + (c - 65536) mod 1024)) with true
    by (symmetry; apply andb_true_iff; split; apply N.leb_le;
        zify; Z.to_euclidean_division_equations; lia).
  cbn [andb]. rewrite (join_surrogates c H). reflexivity.
Qed.

(** The four shapes of an escaped character: a two-character escape,
    the character itself, one [\u] escape, or a surrogate pair. *)
Lemma escape_char_cases (c : N) :
  c < 1114112 ->
  (exists e, escape_char c = [92; e] /\ unescape e = Some c /\ e <> 117)
  \/ (escape_char c = [c] /\ 32 <= c /\ c <> 34 /\ c <> 92)
  \/ (c < 65536 /\ escape_char c = backslash_u c)
  \/ (65536 <= c
      /\ escape_char c =
         backslash_u (N.lor 55296 (N.land (N.shiftr (c - 65536) 10) 1023))
         ++ backslash_u (N.lor 56320 (N.land (c - 65536) 1023))).
Proof.
  intros Hc. unfold escape_char.
  destruct (N.eqb_spec c 92) as [->|H92]; [left; exists 92; repeat split; discriminate|].
  destruct (N.eqb_spec c 34) as [->|H34]; [left; exists 34; repeat split; discriminate|].
  destruct (N.eqb_spec c 8) as [->|H8]; [left; exists 98; repeat split; discriminate|].
  destruct (N.eqb_spec c 12) as [->|H12]; [left; exists 102; repeat split; discriminate|].
  destruct (N.eqb_spec c 10) as [->|H10]; [left; exists 110; repeat split; discriminate|].
  destruct (N.eqb_spec c 13) as [->|H13]; [left; exists 114; repeat split; discriminate|].
  destruct (N.eqb_spec c 9) as [->|H9]; [left; exists 116; repeat split; discriminate|].
  destruct (N.leb_spec 32 c) as [H32|H32]; cbn [andb].
  - destruct (N.leb_spec c 126) as [H126|H126].
    + right; left. repeat split; assumption.
    + destruct (N.ltb_spec c 65536); right; right; [left|right]; split; auto.
  - destruct (N.ltb_spec c 65536); [|lia]. right; right; left. split; auto.
Qed.

(** What the encoder writes after a high surrogate of a decoded string
    is never the escape of a low surrogate. *)
Lemma low_ahead_escaped (s rest : pystr) :
  match s with
  | c2 :: _ => is_low_surrogate c2 = false /\ c2 < 1114112
  | [] => True
  end ->
  low_ahead (flat_map escape_char s ++ 34 :: rest) = false.
Proof.
  destruct s as [|c2 s']; [intros _; destruct rest; reflexivity|].
  intros [Hlow Hc]. cbn [flat_map].
  destruct (escape_char_cases c2 Hc) as [(e & -> & _ & He)|[(-> & _ & _ & H92)|[(H & ->)|(H & ->)]]].
  - cbn [app low_ahead]. apply N.eqb_neq in He. rewrite He. reflexivity.
  - cbn [app]. apply N.eqb_neq in H92.
    destruct (flat_map escape_char s' ++ 34 :: rest); cbn [app low_ahead]; rewrite ?H92; reflexivity.
  - unfold backslash_u, hex4. cbn [app low_ahead]. cbn [N.eqb Pos.eqb andb].
    rewrite (decode_hex4 _ H). exact Hlow.
  - destruct (surrogates c2 (conj H Hc)) as [-> _].
    assert (H1 : 55296 + (c2 - 65536) / 1024 < 56320)
      by (zify; Z.to_euclidean_division_equations; lia).
    unfold backslash_u, hex4. cbn [app low_ahead]. cbn [N.eqb Pos.eqb andb].
    rewrite decode_hex4 by lia. unfold is_low_surrogate.
    apply andb_false_iff. left. apply N.leb_gt. exact H1.
Qed.

(** [scanstring] reads an encoded string back, up to the closing
    quote. *)
Lemma scanstring_escaped (s rest : pystr) :
  str_ok s = true ->
  scanstring (flat_map escape_char s ++ 34 :: rest) = Some (s, rest).
Proof.
  induction s as [|c s IH]; intros Hok; [reflexivity|].
  cbn [str_ok] in Hok. apply andb_true_iff in Hok as [Hok Hs].
  apply andb_true_iff in Hok as [Hc Hpair]. apply N.ltb_lt in Hc.
  apply negb_true_iff in Hpair. specialize (IH Hs).
  cbn [flat_map]. rewrite <- app_assoc.
  set (tail := flat_map escape_char s ++ 34 :: rest) in *.
  destruct (escape_char_cases c Hc) as [(e & -> & He & Hu)|[(-> & H32 & H34 & H92)|[(H & ->)|(H & ->)]]].
  - cbn [app scanstring]. cbn [N.eqb Pos.eqb].
    apply N.eqb_neq in Hu. rewrite Hu, He, IH. reflexivity.
  - cbn [app scanstring]. apply N.eqb_neq in H34, H92. rewrite H34, H92.
    replace (c <? 32) with false by (symmetry; apply N.ltb_ge; exact H32).
    rewrite IH. reflexivity.
  - unfold backslash_u, hex4. cbn [app]. rewrite (scan_u_single c); [rewrite IH; reflexivity|apply decode_hex4, H|].
    destruct (is_high_surrogate c) eqn:Hh; [|reflexivity]. cbn [andb].
    apply low_ahead_escaped. destruct s as [|c2 s']; [exact I|].
    cbn [andb] in Hpair. cbn [str_ok] in Hs. apply andb_true_iff in Hs as [Hs _].
    apply andb_true_iff in Hs as [Hs _]. apply N.ltb_lt in Hs. split; assumption.
  - rewrite <- app_assoc, (scan_u_pair c tail (conj H Hc)), IH. reflexivity.
Qed.

(** *** Numbers *)

Lemma read_digits_end (rest : pystr) :
  number_end rest = true -> read_digits rest = (Decimal.Nil, rest).
Proof.
  destruct rest as [|c r]; [reflexivity|]. cbn [number_end read_digits].
  destruct (digit_of c); [discriminate|reflexivity].
Qed.

Lemma read_digits_digits (d : Decimal.uint) (rest : pystr) :
  number_end rest = true -> read_digits (digits d ++ rest) = (d, rest).
Proof.
  intros H. induction d; cbn [digits app read_digits digit_of];
    [apply read_digits_end, H|..]; rewrite IHd; reflexivity.
Qed.

Lemma number_end_float (rest : pystr) : number_end rest = true -> float_ahead rest = false.
Proof.
  destruct rest as [|c r]; [reflexivity|]. cbn [number_end float_ahead].
  destruct (digit_of c); [discriminate|]. apply negb_true_iff.
Qed.

(** The numeral of a positive number starts with a digit from 1 to 9. *)
Lemma pos_digits_head (p : positive) :
  exists c t, digits (Pos.to_uint p) = c :: t /\ 49 <= c <= 57.
Proof.
  assert (Hn : Pos.to_uint p = Decimal.nzhead (Pos.to_uint p)).
  { pose proof (DecimalPos.Unsigned.to_of (Pos.to_uint p)) as H.
    rewrite DecimalPos.Unsigned.of_to in H. cbn [N.to_uint] in H.
    rewrite H at 1. apply unorm_nzhead. intros Hnil.
    apply (DecimalPos.Unsigned.to_uint_nonzero p). rewrite H. apply unorm_0, Hnil. }
  pose proof (DecimalPos.Unsigned.to_uint_nonnil p) as Hnil.
  destruct (Pos.to_uint p) as [|d|d|d|d|d|d|d|d|d|d] eqn:E;
    [congruence|exfalso; exact (nzhead_nonzero _ _ (eq_sym Hn))|..];
    cbn [digits]; eexists; eexists; (split; [reflexivity|lia]).
Qed.

Lemma digit_head_not_minus (c : N) : 49 <= c <= 57 -> (c =? 45) = false /\ (c =? 48) = false /\ (49 <=? c) && (c <=? 57) = true.
Proof.
  intros H. repeat split.
  - apply N.eqb_neq. lia.
  - apply N.eqb_neq. lia.
  - apply andb_true_iff. split; apply N.leb_le; lia.
Qed.

(** [scan_number] reads a numeral back when the text after it does not
    continue the number. *)
Lemma scan_number_str_of_int (z : Z) (rest : pystr) :
  number_end rest = true ->
  scan_number (str_of_int z ++ rest) = Some (VInt z, rest).
Proof.
  intros H. pose proof (number_end_float _ H) as Hf.
  pose proof (DecimalZ.of_to z) as Hz. unfold str_of_int. destruct z as [|p|p]; cbn [Z.to_int] in *.
  - cbn. rewrite Hf. reflexivity.
  - destruct (pos_digits_head p) as (c & t & E & Hc).
    destruct (digit_head_not_minus c Hc) as (H1 & H2 & H3).
    unfold scan_number. pose proof (read_digits_digits (Pos.to_uint p) rest H) as HR.
    rewrite E in *. cbn [app] in *. rewrite H1. unfold scan_int. rewrite H2, H3, HR, Hf, Hz.
    reflexivity.
  - destruct (pos_digits_head p) as (c & t & E & Hc).
    destruct (digit_head_not_minus c Hc) as (H1 & H2 & H3).
    unfold scan_number. pose proof (read_digits_digits (Pos.to_uint p) rest H) as HR.
    cbn [app]. cbn [N.eqb Pos.eqb].
    rewrite E in *. cbn [app] in *. unfold scan_int. rewrite H2, H3, HR, Hf, Hz.
    reflexivity.
Qed.

(** *** Values *)

(** Induction on values, with the property assumed for the items of a
    list and of a dict. *)
Lemma value_ind_nested (P : value -> Prop) :
  P VNone -> (forall b, P (VBool b)) -> (forall z, P (VInt z)) -> (forall s, P (VStr s)) ->
  (forall l, Forall P l -> P (VList l)) ->
  (forall d, Forall (fun kv => P (snd kv)) d -> P (VDict d)) ->
  forall v, P v.
Proof.
  intros HN HB HI HS HL HD. fix IH 1. intros [|b|z|s|l|d].
  - exact HN.
  - apply HB.
  - apply HI.
  - apply HS.
  - apply HL. induction l as [|x l IHl]; constructor; [apply IH|exact IHl].
  - apply HD. induction d as [|[k x] d IHd]; constructor; [apply IH|exact IHd].
Qed.

Lemma skip_ws_head (c : N) (t : pystr) : is_ws c = false -> skip_ws (c :: t) = c :: t.
Proof. intros H. cbn [skip_ws]. rewrite H. reflexivity. Qed.

Lemma str_of_int_head (z : Z) :
  exists c t, str_of_int z = c :: t /\ (c = 45 \/ 48 <= c <= 57).
Proof.
  unfold str_of_int. destruct z as [|p|p]; cbn [Z.to_int].
  - exists 48, []. split; [reflexivity|right; lia].
  - destruct (pos_digits_head p) as (c & t & E & Hc). exists c, t. split; [exact E|right; lia].
  - eexists; eexists. split; [reflexivity|left; reflexivity].
Qed.

Lemma dumps_head (v : value) : exists c t, dumps v = c :: t /\ value_start c.
Proof.
  unfold value_start.
  destruct v as [|[]|z|s|l|d]; cbn [dumps]; try (eexists; eexists; split; [reflexivity|repeat split; discriminate]).
  destruct (str_of_int_head z) as (c & t & E & Hc); exists c, t; (split; [exact E|]).
  destruct Hc as [->|Hc].
  - repeat split; discriminate.
  - repeat split; try lia. unfold is_ws.
    repeat (apply orb_false_iff; split); apply N.eqb_neq; lia.
Qed.

Lemma scan_once_number (fuel : nat) (z : Z) (rest : pystr) :
  number_end rest = true ->
  scan_once (S fuel) (str_of_int z ++ rest) = Some (VInt z, rest).
Proof.
  intros H. pose proof (scan_number_str_of_int z rest H) as HS.
  destruct (str_of_int_head z) as (c & t & E & Hc). rewrite E in *. cbn [app] in *.
  cbn [scan_once].
  assert (H34 : (c =? 34) = false) by (apply N.eqb_neq; lia).
  assert (H123 : (c =? 123) = false) by (apply N.eqb_neq; lia).
  assert (H91 : (c =? 91) = false) by (apply N.eqb_neq; lia).
  assert (H110 : (110 =? c) = false) by (apply N.eqb_neq; lia).
  assert (H116 : (116 =? c) = false) by (apply N.eqb_neq; lia).
  assert (H102 : (102 =? c) = false) by (apply N.eqb_neq; lia).
  rewrite H34, H123, H91. cbn [lit list_ascii_of_string map starts_with].
  cbn [N_of_ascii N_of_digits N.add N.mul Pos.add Pos.mul Pos.succ].
  rewrite H110, H116, H102. cbn [andb]. exact HS.
Qed.

Lemma skip_ws_dumps (v : value) (rest : pystr) : skip_ws (dumps v ++ rest) = dumps v ++ rest.
Proof.
  destruct (dumps_head v) as (c & t & -> & Hc & _). cbn [app]. apply skip_ws_head, Hc.
Qed.

Lemma join_head (sep p : pystr) (ps : list pystr) :
  exists t, join sep (p :: ps) = p ++ t.
Proof.
  destruct ps as [|q ps]; [exists []; symmetry; apply List.app_nil_r|].
  exists (sep ++ join sep (q :: ps)). reflexivity.
Qed.

(** [JSONArray] reads back the items of a list that is not empty. *)
Lemma JSONArray_items (l : list value) :
  l <> [] -> Forall round_trips l -> forallb decoded l = true ->
  forall fuel rest,
    (List.length (join (lit ", ") (map dumps l)) < fuel)%nat ->
    JSONArray fuel (join (lit ", ") (map dumps l) ++ 93 :: rest) = Some (l, rest).
Proof.
  induction l as [|x l IH]; [congruence|]. intros _ HF Hd fuel rest Hfuel.
  inversion HF as [|? ? Hx HFl]; subst. cbn [forallb] in Hd.
  apply andb_true_iff in Hd as [Hdx Hdl].
  destruct fuel as [|fuel]; [lia|]. cbn [JSONArray].
  destruct l as [|y ys].
  - cbn [map join] in *. rewrite (Hx Hdx fuel (93 :: rest)); [|lia|reflexivity].
    reflexivity.
  - change (join (lit ", ") (map dumps (x :: y :: ys)))
      with (dumps x ++ lit ", " ++ join (lit ", ") (map dumps (y :: ys))) in *.
    rewrite !List.length_app in Hfuel. rewrite <- !app_assoc.
    change (List.length (lit ", ")) with 2%nat in Hfuel.
    rewrite (Hx Hdx fuel); [|lia|reflexivity].
    change (lit ", " ++ ?t) with (44 :: 32 :: t).
    cbn [skip_ws is_ws N.eqb Pos.eqb orb].
    assert (HS : skip_ws (join (lit ", ") (map dumps (y :: ys)) ++ 93 :: rest)
                 = join (lit ", ") (map dumps (y :: ys)) ++ 93 :: rest).
    { cbn [map]. destruct (join_head (lit ", ") (dumps y) (map dumps ys)) as [t ->].
      rewrite <- app_assoc. apply skip_ws_dumps. }
    rewrite HS, (IH ltac:(discriminate) HFl Hdl fuel rest); [reflexivity|lia].
Qed.

Lemma item_text (k : pystr) (v : value) (tail : pystr) :
  item (k, v) ++ tail = 34 :: flat_map escape_char k ++ 34 :: 58 :: 32 :: dumps v ++ tail.
Proof.
  unfold item, encode_basestring_ascii. cbn [fst snd app].
  rewrite <- !app_assoc. reflexivity.
Qed.

Lemma item_length (k : pystr) (v : value) : (List.length (dumps v) + 4 <= List.length (item (k, v)))%nat.
Proof.
  unfold item, encode_basestring_ascii. cbn [fst snd app List.length].
  rewrite !List.length_app. cbn [List.length lit list_ascii_of_string map]. lia.
Qed.

(** [JSONObject] reads back the items of a dict that is not empty. *)
Lemma JSONObject_items (d : list (pystr * value)) :
  d <> [] -> Forall (fun kv => round_trips (snd kv)) d ->
  forallb (fun kv => str_ok (fst kv) && decoded (snd kv)) d = true ->
  forall fuel rest,
    (List.length (join (lit ", ") (map item d)) < fuel)%nat ->
    JSONObject fuel (join (lit ", ") (map item d) ++ 125 :: rest) = Some (d, rest).
Proof.
  induction d as [|[k v] d IH]; [congruence|]. intros _ HF Hd fuel rest Hfuel.
  inversion HF as [|? ? Hv HFd]; subst. cbn [forallb fst snd] in Hd, Hv.
  apply andb_true_iff in Hd as [Hkv Hdd]. apply andb_true_iff in Hkv as [Hk Hdv].
  destruct fuel as [|fuel]; [lia|]. cbn [JSONObject].
  pose proof (item_length k v) as Hlen.
  destruct d as [|kv' d'].
  - cbn [map join] in *. rewrite item_text. cbn [N.eqb Pos.eqb].
    rewrite (scanstring_escaped k _ Hk). cbn [skip_ws is_ws N.eqb Pos.eqb orb].
    rewrite skip_ws_dumps, (Hv Hdv fuel (125 :: rest)); [|lia|reflexivity].
    reflexivity.
  - change (join (lit ", ") (map item ((k, v) :: kv' :: d')))
      with (item (k, v) ++ lit ", " ++ join (lit ", ") (map item (kv' :: d'))) in *.
    rewrite !List.length_app in Hfuel. change (List.length (lit ", ")) with 2%nat in Hfuel.
    rewrite <- !app_assoc, item_text. cbn [N.eqb Pos.eqb].
    rewrite (scanstring_escaped k _ Hk). cbn [skip_ws is_ws N.eqb Pos.eqb orb].
    rewrite skip_ws_dumps, (Hv Hdv fuel); [|lia|reflexivity].
    change (lit ", " ++ ?t) with (44 :: 32 :: t).
    cbn [skip_ws is_ws N.eqb Pos.eqb orb].
    assert (HS : skip_ws (join (lit ", ") (map item (kv' :: d')) ++ 125 :: rest)
                 = join (lit ", ") (map item (kv' :: d')) ++ 125 :: rest).
    { cbn [map]. destruct (join_head (lit ", ") (item kv') (map item d')) as [t ->].
      destruct kv' as [k' v']. rewrite <- app_assoc, item_text. reflexivity. }
    rewrite HS, (IH ltac:(discriminate) HFd Hdd fuel rest); [reflexivity|lia].
Qed.

Lemma str_eqb_eq (a b : pystr) : str_eqb a b = true <-> a = b.
Proof. unfold str_eqb. destruct (list_eq_dec N.eq_dec a b); split; congruence. Qed.

Lemma dict_set_new (d : list (pystr * value)) (k : pystr) (v : value) :
  existsb (str_eqb k) (map fst d) = false -> dict_set d k v = d ++ [(k, v)].
Proof.
  induction d as [|[k' x] d IH]; [reflexivity|]. cbn [map fst existsb dict_set app].
  intros H. apply orb_false_iff in H as [Hk Hd].
  replace (str_eqb k' k) with false; [rewrite IH by exact Hd; reflexivity|].
  symmetry. apply not_true_iff_false. intros E. apply str_eqb_eq in E. subst k'.
  apply not_true_iff_false in Hk. apply Hk. apply str_eqb_eq. reflexivity.
Qed.

Lemma fold_dict_set (items acc : list (pystr * value)) :
  distinct str_eqb (map fst (acc ++ items)) = true ->
  fold_left (fun d kv => dict_set d (fst kv) (snd kv)) items acc = acc ++ items.
Proof.
  revert acc. induction items as [|[k v] items IH]; intros acc H.
  - symmetry. apply List.app_nil_r.
  - cbn [fold_left fst snd]. rewrite dict_set_new.
    + rewrite IH; rewrite <- app_assoc; [reflexivity|exact H].
    + clear IH. induction acc as [|[k' x] acc IHa]; [reflexivity|].
      cbn [app map fst distinct existsb] in *.
      apply andb_true_iff in H as [Hk' Ha]. rewrite (IHa Ha), orb_false_r.
      apply negb_true_iff in Hk'. rewrite map_app, existsb_app in Hk'.
      apply orb_false_iff in Hk' as [_ Hk']. cbn [map fst existsb] in Hk'.
      apply orb_false_iff in Hk' as [Hk' _].
      apply not_true_iff_false. intros E. apply str_eqb_eq in E. subst k'.
      apply not_true_iff_false in Hk'. apply Hk'. apply str_eqb_eq. reflexivity.
Qed.

(** Building a dict from items with distinct keys keeps the items. *)
Lemma dict_of_items_distinct (d : list (pystr * value)) :
  distinct str_eqb (map fst d) = true -> dict_of_items d = d.
Proof. intros H. unfold dict_of_items. rewrite fold_dict_set; [reflexivity|exact H]. Qed.

(** [scan_once] reads every decoded value back from its text. *)
Theorem scan_once_dumps (v : value) : round_trips v.
Proof.
  induction v as [|b|z|s|l IH|d IH] using value_ind_nested; intros Hd fuel rest Hfuel Hend.
  - destruct fuel as [|fuel]; [cbn in Hfuel; lia|reflexivity].
  - destruct fuel as [|fuel]; [destruct b; cbn in Hfuel; lia|destruct b; reflexivity].
  - destruct fuel as [|fuel]; [|apply scan_once_number, Hend].
    destruct (str_of_int_head z) as (c & t & E & _). cbn [dumps] in Hfuel.
    rewrite E in Hfuel. cbn in Hfuel. lia.
  - destruct fuel as [|fuel]; [cbn in Hfuel; lia|].
    cbn [dumps decoded] in *. unfold encode_basestring_ascii. cbn [app scan_once].
    cbn [N.eqb Pos.eqb]. rewrite <- app_assoc. cbn [app].
    rewrite (scanstring_escaped s rest Hd). reflexivity.
  - destruct fuel as [|fuel]; [cbn in Hfuel; lia|].
    cbn [dumps decoded] in *. cbn [app scan_once]. cbn [N.eqb Pos.eqb].
    rewrite <- app_assoc. cbn [app].
    destruct l as [|x l]; [reflexivity|].
    cbn [List.length] in Hfuel. rewrite List.length_app in Hfuel. cbn [List.length] in Hfuel.
    pose proof (JSONArray_items (x :: l) ltac:(discriminate) IH Hd fuel rest ltac:(lia)) as HA.
    cbn [map] in *. destruct (join_head (lit ", ") (dumps x) (map dumps l)) as [t Ht].
    rewrite Ht in *. rewrite <- app_assoc in *.
    destruct (dumps_head x) as (c & t' & Ec & Hws & H93 & _). rewrite Ec in *.
    cbn [app] in *. cbn [skip_ws]. rewrite Hws.
    apply N.eqb_neq in H93. rewrite H93, HA. reflexivity.
  - destruct fuel as [|fuel]; [cbn in Hfuel; lia|].
    cbn [dumps decoded] in *. apply andb_true_iff in Hd as [Hkeys Hd].
    cbn [app scan_once]. cbn [N.eqb Pos.eqb].
    rewrite <- app_assoc. cbn [app].
    destruct d as [|[k x] d]; [reflexivity|].
    cbn [List.length] in Hfuel. rewrite List.length_app in Hfuel. cbn [List.length] in Hfuel.
    fold item in *.
    pose proof (JSONObject_items ((k, x) :: d) ltac:(discriminate) IH Hd fuel rest ltac:(lia)) as HO.
    cbn [map] in *. destruct (join_head (lit ", ") (item (k, x)) (map item d)) as [t Ht].
    rewrite Ht in *. rewrite <- app_assoc in *. rewrite item_text in *.
    cbn [skip_ws is_ws N.eqb Pos.eqb orb]. rewrite HO.
    rewrite (dict_of_items_distinct ((k, x) :: d) Hkeys). reflexivity.
Qed.

(** [json.loads(json.dumps(v)) == v] for every value the decoder can
    give. *)
Theorem loads_dumps (v : value) : decoded v = true -> loads (dumps v) = Some v.
Proof.
  intros Hd. unfold loads.
  pose proof (skip_ws_dumps v []) as HS. rewrite List.app_nil_r in HS. rewrite HS.
  pose proof (scan_once_dumps v Hd (S (List.length (dumps v))) [] ltac:(lia) eq_refl) as H.
  rewrite List.app_nil_r in H. rewrite H. reflexivity.
Qed.

Local Close Scope N_scope.

(** ** Running the handlers *)

Lemma in_db_gets (A : Type) (f : db.Store -> A) (w : World) :
  in_db (gets f) w = (Returned (f (store w)), w).
Proof. destruct w; reflexivity. Qed.

Lemma dict_get_absent (d : list (pystr * value)) (key : pystr) (default : value) :
  dict_has d key = false -> dict_get d key default = default.
Proof.
  unfold dict_has. induction d as [|[k v] d IH]; simpl; [reflexivity|].
  intros H. apply orb_false_iff in H as [Hk Hd]. rewrite Hk. auto.
Qed.

Lemma resolve_get (id : value) (w : World) :
  in_db (db.Collaboration_get id) w = (Returned (resolve id w), w).
Proof. unfold db.Collaboration_get, resolve. rewrite in_db_gets. reflexivity. Qed.

Lemma existsb_find_none (A : Type) (f : A -> bool) (l : list A) :
  existsb f l = false <-> find f l = None.
Proof.
  induction l as [|x l IH]; simpl; [tauto|].
  destruct (f x); simpl; [split; discriminate|exact IH].
Qed.

Lemma find_has_id (i : Z) (l : list db.Task) (t : db.Task) :
  find (db.has_id i) l = Some t -> db.Task_id t = Some i /\ In t l.
Proof.
  intros H. apply find_some in H as [Hin Hid]. split; [|exact Hin].
  unfold db.has_id, opt_Z_eqb in Hid. destruct (db.Task_id t) as [j|]; [|discriminate].
  apply Z.eqb_eq in Hid. congruence.
Qed.

(** A saved row written again over itself leaves the table as it is. *)
Lemma update_self (bound i : Z) (t : db.Task) (l : list db.Task) :
  forallb (fun t => id_below bound (db.Task_id t)) l = true ->
  (bound <= i)%Z -> db.Task_id t = Some i ->
  map (fun row => if db.has_id i row then t else row) (l ++ [t]) = l ++ [t].
Proof.
  intros Hl Hb Ht. rewrite map_app. f_equal.
  - induction l as [|x l IH]; simpl in *; [reflexivity|].
    apply andb_true_iff in Hl as [Hx Hl]. rewrite IH by assumption. f_equal.
    unfold db.has_id, id_below in *. destruct (db.Task_id x) as [j|]; [|discriminate].
    simpl. apply andb_true_iff in Hx as [_ Hx]. apply Z.ltb_lt in Hx.
    destruct (Z.eqb_spec j i); [lia|reflexivity].
  - simpl. unfold db.has_id. rewrite Ht. simpl. rewrite Z.eqb_refl. reflexivity.
Qed.

Lemma consistent_tasks (st : db.Store) :
  consistent st = true ->
  forallb (fun t => id_below (db.next_task_id st) (db.Task_id t)) (db.tasks st) = true.
Proof.
  unfold consistent. rewrite !andb_true_iff. intros [[[[_ H] _] _] _]. exact H.
Qed.

Ltac open_world w :=
  let ts := fresh "ts" in let rs := fresh "rs" in let cs := fresh "cs" in
  let nt := fresh "nt" in let nr := fresh "nr" in let fs := fresh "fs" in
  let ev := fresh "ev" in
  destruct w as [[ts rs cs nt nr fs] ev];
  cbn [store emitted db.tasks db.results db.collaborations db.next_task_id
       db.next_result_id db.faults] in *.

Ltac run_handler :=
  cbv [bind in_db db.Task_save db.Task_delete db.Task_get db.Task_results gets db.commit ret
       raise socketio_emit modify dump view];
  cbn [store emitted db.tasks db.results db.collaborations db.next_task_id
       db.next_result_id db.faults tl fst snd].

Lemma post_missing (data : list (pystr * value)) (w : World) :
  truthy (dict_get data (lit "collaboration_id") VNone) = false ->
  Task.post data w =
  (Returned (Msg (lit "JSON should contain 'collaboration_id'"), BAD_REQUEST), w).
Proof. intros H. unfold Task.post. rewrite H. reflexivity. Qed.

Lemma post_unresolved (data : list (pystr * value)) (w : World) :
  truthy (dict_get data (lit "collaboration_id") VNone) = true ->
  resolve (dict_get data (lit "collaboration_id") VNone) w = None ->
  Task.post data w =
  (Returned (Msg (format (lit "collaboration id={} not found")
                    (dict_get data (lit "collaboration_id") VNone)), NOT_FOUND), w).
Proof.
  intros H1 H2. unfold Task.post. rewrite H1. cbn [negb].
  unfold bind at 1. rewrite resolve_get, H2. reflexivity.
Qed.

(** The three ways [post] ends once the id is truthy and resolves to a
    collaboration: the first commit fails, the second fails, or both go
    through. *)
Section Creation.

Variable data : list (pystr * value).
Variable w : World.
Variable c : db.Collaboration.

Hypothesis id_truthy : truthy (dict_get data (lit "collaboration_id") VNone) = true.
Hypothesis id_resolves : resolve (dict_get data (lit "collaboration_id") VNone) w = Some c.

Lemma post_enters :
  Task.post data w =
  (task <- in_db (db.Task_save (drafted data c) []) ;;
   task <- in_db (db.Task_save task
                    (map (db.TaskResult_new task) (db.Collaboration_nodes c))) ;;
   socketio_emit (lit "new_task") (db.Task_id task)
     (lit "collaboration_" ++ str_of_int (db.Task_collaboration_id task))
     (lit "/tasks") ;;;
   d <- in_db (dump TaskSchema (db.Row task) false) ;;
   ret (Dumped d, OK)) w.
Proof.
  unfold Task.post. rewrite id_truthy. cbn [negb].
  unfold bind at 1. rewrite resolve_get, id_resolves. reflexivity.
Qed.

Lemma post_first_fault :
  fault_at 0 w = true ->
  Task.post data w =
  (Raised PersistenceFailure,
   {| store :=
        {| db.tasks := db.tasks (store w);
           db.results := db.results (store w);
           db.collaborations := db.collaborations (store w);
           db.next_task_id := db.next_task_id (store w);
           db.next_result_id := db.next_result_id (store w);
           db.faults := tl (db.faults (store w)) |};
      emitted := emitted w |}).
Proof.
  intros F0. rewrite post_enters. clear id_truthy id_resolves.
  unfold fault_at in F0. open_world w.
  destruct fs as [|[] fs]; try discriminate. run_handler. reflexivity.
Qed.

Lemma post_second_fault :
  fault_at 0 w = false -> fault_at 1 w = true ->
  Task.post data w =
  (Raised PersistenceFailure,
   {| store :=
        {| db.tasks := db.tasks (store w) ++ [created data c w];
           db.results := db.results (store w);
           db.collaborations := db.collaborations (store w);
           db.next_task_id := db.next_task_id (store w) + 1;
           db.next_result_id := db.next_result_id (store w);
           db.faults := tl (tl (db.faults (store w))) |};
      emitted := emitted w |}).
Proof.
  intros F0 F1. rewrite post_enters. clear id_truthy id_resolves.
  unfold fault_at, created in *. open_world w.
  destruct fs as [|[] [|[] fs]]; try discriminate. run_handler.
  rewrite List.app_nil_r, Z.add_0_r. reflexivity.
Qed.

Lemma post_ok :
  consistent (store w) = true ->
  fault_at 0 w = false -> fault_at 1 w = false ->
  Task.post data w =
  (Returned (Dumped (One {| view_task := created data c w; view_results := None |}), OK),
   {| store :=
        {| db.tasks := db.tasks (store w) ++ [created data c w];
           db.results := db.results (store w) ++ fan_out data c w;
           db.collaborations := db.collaborations (store w);
           db.next_task_id := db.next_task_id (store w) + 1;
           db.next_result_id :=
             db.next_result_id (store w) + Z.of_nat (List.length (db.Collaboration_nodes c));
           db.faults := tl (tl (db.faults (store w))) |};
      emitted := emitted w ++ [new_task_event (created data c w)] |}).
Proof.
  intros Hc F0 F1. rewrite post_enters. clear id_truthy id_resolves.
  apply consistent_tasks in Hc.
  unfold fault_at, created, fan_out, new_task_event in *. open_world w.
  pose proof (update_self nt nt (db.with_id nt (drafted data c)) ts Hc (Z.le_refl _) eq_refl) as HU.
  set (d := drafted data c) in *.
  assert (Hd : db.Task_id d = None) by reflexivity.
  destruct fs as [|[] [|[] fs]]; try discriminate; run_handler;
    rewrite Hd; cbn [db.Task_id db.with_id db.assign_ids List.length Z.of_nat app tl];
    rewrite HU, List.app_nil_r, Z.add_0_r, List.length_map; reflexivity.
Qed.

End Creation.

(** ** Consistency is kept by the handlers *)

Lemma opt_Z_eqb_eq (a b : option Z) : opt_Z_eqb a b = true <-> a = b.
Proof.
  destruct a as [x|], b as [y|]; simpl; try (split; congruence).
  rewrite Z.eqb_eq. split; congruence.
Qed.

Lemma key_eqb_eq (a b : option Z * Z) : key_eqb a b = true <-> a = b.
Proof.
  destruct a as [a1 a2], b as [b1 b2]. unfold key_eqb. simpl.
  rewrite andb_true_iff, opt_Z_eqb_eq, Z.eqb_eq. split.
  - intros [-> ->]. reflexivity.
  - intros H. injection H as -> ->. split; reflexivity.
Qed.

Lemma distinct_NoDup (A : Type) (eqb : A -> A -> bool) (l : list A) :
  (forall a b, eqb a b = true <-> a = b) ->
  distinct eqb l = true <-> NoDup l.
Proof.
  intros Heq. induction l as [|x l IH]; simpl.
  - split; [constructor|reflexivity].
  - rewrite andb_true_iff, negb_true_iff, IH, NoDup_cons_iff.
    assert (Hin : existsb (eqb x) l = false <-> ~ In x l).
    { rewrite <- not_true_iff_false, existsb_exists. split.
      - intros H Hx. apply H. exists x. split; [exact Hx|apply Heq; reflexivity].
      - intros H [y [Hy Hxy]]. apply Heq in Hxy. subst y. exact (H Hy). }
    rewrite Hin. tauto.
Qed.

Lemma id_below_spec (bound : Z) (id : option Z) :
  id_below bound id = true <-> exists i, id = Some i /\ (0 < i < bound)%Z.
Proof.
  destruct id as [i|]; simpl.
  - rewrite andb_true_iff, !Z.ltb_lt. split.
    + intros H. exists i. split; [reflexivity|exact H].
    + intros [j [Hj Hlt]]. injection Hj as ->. exact Hlt.
  - split; [discriminate|]. intros [j [Hj _]]. discriminate.
Qed.

Lemma consistent_spec (st : db.Store) :
  consistent st = true <->
  (0 < db.next_task_id st)%Z
  /\ (forall t, In t (db.tasks st) -> id_below (db.next_task_id st) (db.Task_id t) = true)
  /\ (forall r, In r (db.results st) ->
        id_below (db.next_task_id st) (db.TaskResult_task_id r) = true)
  /\ NoDup (map pair_key (db.results st))
  /\ (forall c, In c (db.collaborations st) ->
        NoDup (map db.Node_id (db.Collaboration_nodes c))).
Proof.
  unfold consistent. rewrite !andb_true_iff, !forallb_forall, Z.ltb_lt.
  rewrite (distinct_NoDup _ key_eqb _ key_eqb_eq).
  assert (H : (forall c, In c (db.collaborations st) ->
                 distinct Z.eqb (map db.Node_id (db.Collaboration_nodes c)) = true)
              <-> (forall c, In c (db.collaborations st) ->
                     NoDup (map db.Node_id (db.Collaboration_nodes c)))).
  { split; intros H c Hc; apply (distinct_NoDup _ Z.eqb _ Z.eqb_eq); auto. }
  rewrite H. tauto.
Qed.

Lemma id_below_mono (b b' : Z) (id : option Z) :
  (b <= b')%Z -> id_below b id = true -> id_below b' id = true.
Proof.
  intros Hb H. apply id_below_spec in H as [i [-> Hi]]. apply id_below_spec.
  exists i. split; [reflexivity|lia].
Qed.

Lemma pair_key_assign (next : Z) (l : list db.TaskResult) :
  map pair_key (db.assign_ids next l) = map pair_key l.
Proof.
  revert next. induction l as [|r l IH]; intros next; simpl; [reflexivity|].
  rewrite IH. reflexivity.
Qed.

Lemma task_id_assign (next : Z) (l : list db.TaskResult) :
  map db.TaskResult_task_id (db.assign_ids next l) = map db.TaskResult_task_id l.
Proof.
  revert next. induction l as [|r l IH]; intros next; simpl; [reflexivity|].
  rewrite IH. reflexivity.
Qed.

Lemma node_id_assign (next : Z) (l : list db.TaskResult) :
  map db.TaskResult_node_id (db.assign_ids next l) = map db.TaskResult_node_id l.
Proof.
  revert next. induction l as [|r l IH]; intros next; simpl; [reflexivity|].
  rewrite IH. reflexivity.
Qed.

Lemma fan_out_keys (data : list (pystr * value)) (c : db.Collaboration) (w : World) :
  map pair_key (fan_out data c w)
  = map (fun n => (Some (db.next_task_id (store w)), db.Node_id n)) (db.Collaboration_nodes c).
Proof. unfold fan_out. rewrite pair_key_assign, map_map. reflexivity. Qed.

Lemma fan_out_nodes (data : list (pystr * value)) (c : db.Collaboration) (w : World) :
  map db.TaskResult_node_id (fan_out data c w) = map db.Node_id (db.Collaboration_nodes c).
Proof. unfold fan_out. rewrite node_id_assign, map_map. reflexivity. Qed.

Lemma fan_out_task (data : list (pystr * value)) (c : db.Collaboration) (w : World) (r : db.TaskResult) :
  In r (fan_out data c w) -> db.TaskResult_task_id r = Some (db.next_task_id (store w)).
Proof.
  intros H. apply (in_map db.TaskResult_task_id) in H.
  unfold fan_out in H. rewrite task_id_assign, map_map in H.
  apply in_map_iff in H as [n [Hn _]]. symmetry. exact Hn.
Qed.

Lemma NoDup_map_injective (A B : Type) (f : A -> B) (l : list A) :
  (forall x y, f x = f y -> x = y) -> NoDup l -> NoDup (map f l).
Proof.
  intros Hf. induction 1 as [|x l Hx Hl IH]; simpl; constructor; [|exact IH].
  intros Hin. apply in_map_iff in Hin as [y [Hy Hin]]. apply Hf in Hy. subst y. exact (Hx Hin).
Qed.

Lemma resolve_in (id : value) (w : World) (c : db.Collaboration) :
  resolve id w = Some c -> In c (db.collaborations (store w)).
Proof.
  unfold resolve, db.Collaboration_get, gets. cbn [fst].
  destruct id; try discriminate. intros H. apply find_some in H. tauto.
Qed.

Lemma consistent_world0 (faults : list bool) : consistent (store (world0 faults)) = true.
Proof. reflexivity. Qed.

(** The store after the task and its results were written. *)
Lemma consistent_after_fan_out (data : list (pystr * value)) (c : db.Collaboration)
  (w : World) (fs : list bool) :
  consistent (store w) = true ->
  In c (db.collaborations (store w)) ->
  consistent
    {| db.tasks := db.tasks (store w) ++ [created data c w];
       db.results := db.results (store w) ++ fan_out data c w;
       db.collaborations := db.collaborations (store w);
       db.next_task_id := db.next_task_id (store w) + 1;
       db.next_result_id :=
         db.next_result_id (store w) + Z.of_nat (List.length (db.Collaboration_nodes c));
       db.faults := fs |} = true.
Proof.
  intros Hc Hin. apply consistent_spec in Hc as (Hp & Ht & Hr & Hk & Hn).
  apply consistent_spec. cbn [db.tasks db.results db.collaborations db.next_task_id].
  split; [lia|]. repeat split.
  - intros t H. apply in_app_or in H as [H|[<-|[]]].
    + eapply id_below_mono; [|apply Ht, H]. lia.
    + apply id_below_spec. eexists. split; [reflexivity|lia].
  - intros r H. apply in_app_or in H as [H|H].
    + eapply id_below_mono; [|apply Hr, H]. lia.
    + rewrite (fan_out_task _ _ _ _ H). apply id_below_spec. eexists. split; [reflexivity|lia].
  - rewrite map_app. apply NoDup_app; [exact Hk| |].
    + rewrite fan_out_keys, <- (map_map db.Node_id (pair (Some (db.next_task_id (store w))))).
      apply NoDup_map_injective; [|apply Hn, Hin]. intros x y H. congruence.
    + intros k Hk1 Hk2. apply in_map_iff in Hk1 as [r [<- Hr1]].
      rewrite fan_out_keys in Hk2. apply in_map_iff in Hk2 as [n [Hn2 _]].
      apply Hr, id_below_spec in Hr1 as [i [Hi Hlt]].
      unfold pair_key in Hn2. rewrite Hi in Hn2. injection Hn2 as Hn2 _. lia.
  - exact Hn.
Qed.

Lemma consistent_post (data : list (pystr * value)) (w : World) :
  consistent (store w) = true -> consistent (store (snd (Task.post data w))) = true.
Proof.
  intros Hc.
  destruct (truthy (dict_get data (lit "collaboration_id") VNone)) eqn:H1;
    [|rewrite post_missing by assumption; exact Hc].
  destruct (resolve (dict_get data (lit "collaboration_id") VNone) w) as [c|] eqn:H2;
    [|rewrite post_unresolved by assumption; exact Hc].
  destruct (fault_at 0 w) eqn:F0.
  { rewrite (post_first_fault _ _ _ H1 H2 F0). exact Hc. }
  destruct (fault_at 1 w) eqn:F1.
  - rewrite (post_second_fault _ _ _ H1 H2 F0 F1). cbn [snd store].
    apply consistent_spec in Hc as (Hp & Ht & Hr & Hk & Hn).
    apply consistent_spec. cbn [db.tasks db.results db.collaborations db.next_task_id].
    split; [lia|]. repeat split; try assumption.
    + intros t H. apply in_app_or in H as [H|[<-|[]]].
      * eapply id_below_mono; [|apply Ht, H]. lia.
      * apply id_below_spec. eexists. split; [reflexivity|lia].
    + intros r H. eapply id_below_mono; [|apply Hr, H]. lia.
  - rewrite (post_ok _ _ _ H1 H2 Hc F0 F1). cbn [snd store].
    apply consistent_after_fan_out; [exact Hc|exact (resolve_in _ _ _ H2)].
Qed.

Lemma get_missing (id : Z) (include : option pystr) (w : World) :
  find (db.has_id id) (db.tasks (store w)) = None ->
  Task.get (Some id) include w = (Returned (Msg (lit "task id={} is not found"), NOT_FOUND), w).
Proof.
  intros H. unfold Task.get, db.Task_get. unfold bind at 1. rewrite in_db_gets, H. reflexivity.
Qed.

Lemma get_one (id : Z) (include : option pystr) (w : World) (t : db.Task) :
  find (db.has_id id) (db.tasks (store w)) = Some t -> id <> 0%Z ->
  Task.get (Some id) include w =
  (Returned
     (Dumped (One (view (if include_results include then TaskIncludedSchema else TaskSchema)
                     (store w) t)), OK), w).
Proof.
  intros H Hid. unfold Task.get, db.Task_get. unfold bind at 1. rewrite in_db_gets, H.
  cbn [db.found_truthy negb]. apply Z.eqb_neq in Hid. rewrite Hid.
  destruct w. reflexivity.
Qed.

Lemma get_all (include : option pystr) (w : World) :
  Task.get None include w =
  match db.tasks (store w) with
  | [] => (Returned (Msg (lit "task id={} is not found"), NOT_FOUND), w)
  | _ :: _ =>
      (Returned
         (Dumped (Many (map (view (if include_results include then TaskIncludedSchema
                                   else TaskSchema) (store w)) (db.tasks (store w)))), OK), w)
  end.
Proof.
  unfold Task.get, db.Task_get. unfold bind at 1. rewrite in_db_gets.
  destruct w as [st ev]. cbn [store]. destruct (db.tasks st) eqn:E; reflexivity.
Qed.

Lemma results_get_run (id : Z) (w : World) :
  TaskResult.get id w =
  match find (db.has_id id) (db.tasks (store w)) with
  | None => (Returned (Msg (format (lit "task id={} not found") (VInt id)), NOT_FOUND), w)
  | Some _ => (Returned (ResultList (db.results_for id (store w)), OK), w)
  end.
Proof.
  unfold TaskResult.get, db.Task_get. unfold bind at 1. rewrite in_db_gets.
  destruct (find (db.has_id id) (db.tasks (store w))) as [t|] eqn:E; [|reflexivity].
  apply find_has_id in E as [E _]. cbn [db.found_truthy negb].
  unfold db.Task_results. unfold bind. rewrite in_db_gets, E. reflexivity.
Qed.

Lemma delete_run (id : Z) (w : World) :
  Task.delete id w =
  match find (db.has_id id) (db.tasks (store w)) with
  | None => (Returned (Msg (format (lit "task id={} not found") (VInt id)), NOT_FOUND), w)
  | Some _ =>
      if fault_at 0 w then
        (Raised PersistenceFailure,
         {| store :=
              {| db.tasks := db.tasks (store w);
                 db.results := db.results (store w);
                 db.collaborations := db.collaborations (store w);
                 db.next_task_id := db.next_task_id (store w);
                 db.next_result_id := db.next_result_id (store w);
                 db.faults := tl (db.faults (store w)) |};
            emitted := emitted w |})
      else
        (Returned (Msg (format (lit "task id={} successfully deleted") (VInt id)), OK),
         {| store :=
              {| db.tasks :=
                   filter (fun row => negb (db.has_id id row)) (db.tasks (store w));
                 db.results := db.results (store w);
                 db.collaborations := db.collaborations (store w);
                 db.next_task_id := db.next_task_id (store w);
                 db.next_result_id := db.next_result_id (store w);
                 db.faults := tl (db.faults (store w)) |};
            emitted := emitted w |})
  end.
Proof.
  unfold Task.delete, db.Task_get. unfold bind at 1. rewrite in_db_gets.
  destruct (find (db.has_id id) (db.tasks (store w))) as [t|] eqn:E; [|reflexivity].
  apply find_has_id in E as [E _]. cbn [db.found_truthy negb].
  unfold fault_at. open_world w.
  destruct fs as [|[] fs]; run_handler; cbn [nth]; try rewrite E; reflexivity.
Qed.

Lemma consistent_delete (id : Z) (w : World) :
  consistent (store w) = true -> consistent (store (snd (Task.delete id w))) = true.
Proof.
  intros Hc. rewrite delete_run.
  destruct (find (db.has_id id) (db.tasks (store w))); [|exact Hc].
  destruct (fault_at 0 w); [exact Hc|]. cbn [snd store].
  apply consistent_spec in Hc as (Hp & Ht & Hr & Hk & Hn).
  apply consistent_spec. cbn [db.tasks db.results db.collaborations db.next_task_id].
  repeat split; try assumption.
  intros t' H. apply filter_In in H as [H _]. exact (Ht t' H).
Qed.

(** No row of results references an id that was not given out yet. *)
Lemma results_for_fresh (st : db.Store) :
  consistent st = true -> db.results_for (db.next_task_id st) st = [].
Proof.
  intros Hc. apply consistent_spec in Hc as (_ & _ & Hr & _ & _).
  unfold db.results_for.
  induction (db.results st) as [|r l IH]; [reflexivity|]. simpl.
  pose proof (Hr r (or_introl eq_refl)) as Hb. apply id_below_spec in Hb as [i [Hi Hlt]].
  rewrite Hi. simpl. destruct (Z.eqb_spec i (db.next_task_id st)); [lia|].
  apply IH. intros r' Hr'. apply Hr. right. exact Hr'.
Qed.

(** The rows that reference the task just created are those made for the
    nodes: older rows reference older tasks. *)
Lemma results_for_created (data : list (pystr * value)) (c : db.Collaboration) (w : World) :
  consistent (store w) = true ->
  filter (fun r => opt_Z_eqb (db.TaskResult_task_id r) (Some (db.next_task_id (store w))))
    (db.results (store w) ++ fan_out data c w)
  = fan_out data c w.
Proof.
  intros Hc. rewrite filter_app.
  pose proof (results_for_fresh _ Hc) as H1. unfold db.results_for in H1.
  rewrite H1. simpl. apply forallb_filter_id. apply forallb_forall.
  intros r Hin. rewrite (fan_out_task _ _ _ _ Hin). simpl. apply Z.eqb_refl.
Qed.

Lemma find_fresh (st : db.Store) :
  consistent st = true -> find (db.has_id (db.next_task_id st)) (db.tasks st) = None.
Proof.
  intros Hc. apply consistent_tasks in Hc. apply existsb_find_none.
  induction (db.tasks st) as [|t l IH]; [reflexivity|]. simpl in *.
  apply andb_true_iff in Hc as [Ht Hl]. rewrite (IH Hl), orb_false_r.
  apply id_below_spec in Ht as [i [Hi Hlt]]. unfold db.has_id. rewrite Hi. simpl.
  apply Z.eqb_neq. lia.
Qed.

Lemma find_app_fresh (A : Type) (f : A -> bool) (l : list A) (x : A) :
  find f l = None -> f x = true -> find f (l ++ [x]) = Some x.
Proof.
  induction l as [|y l IH]; simpl; intros Hl Hx.
  - rewrite Hx. reflexivity.
  - destruct (f y); [discriminate|auto].
Qed.

Lemma find_created (data : list (pystr * value)) (c : db.Collaboration) (w : World) :
  consistent (store w) = true ->
  find (db.has_id (db.next_task_id (store w))) (db.tasks (store w) ++ [created data c w])
  = Some (created data c w).
Proof.
  intros Hc. apply find_app_fresh; [apply find_fresh, Hc|].
  unfold db.has_id, created. simpl. apply Z.eqb_refl.
Qed.

Lemma consistent_next_nonzero (st : db.Store) :
  consistent st = true -> db.next_task_id st <> 0%Z.
Proof. intros Hc. apply consistent_spec in Hc as (Hp & _). lia. Qed.

(** ** Creation: validation *)

(** C5: [createTask] fails with the bad-request message when
    [collaboration_id] is absent from the payload, and with not-found
    when the id given resolves to no collaboration; both are
    client-error statuses, and in both cases the world after the call
    is the world before it: nothing was written. *)
Theorem post_validates_before_writing (data : list (pystr * value)) (w : World) :
  (dict_has data (lit "collaboration_id") = false ->
   Task.post data w =
   (Returned (Msg (lit "JSON should contain 'collaboration_id'"), BAD_REQUEST), w))
  /\ (truthy (dict_get data (lit "collaboration_id") VNone) = true ->
      resolve (dict_get data (lit "collaboration_id") VNone) w = None ->
      Task.post data w =
      (Returned (Msg (format (lit "collaboration id={} not found")
                        (dict_get data (lit "collaboration_id") VNone)), NOT_FOUND), w))
  /\ client_error BAD_REQUEST = true
  /\ client_error NOT_FOUND = true.
Proof.
  split; [|split; [|split; reflexivity]].
  - intros H. apply post_missing. rewrite dict_get_absent by exact H. reflexivity.
  - apply post_unresolved.
Qed.

Lemma post_validates_before_writing_witness :
  Task.post [(lit "name", VStr (lit "x"))] (world0 []) =
  (Returned (Msg (lit "JSON should contain 'collaboration_id'"), BAD_REQUEST), world0 [])
  /\ Task.post [(lit "collaboration_id", VInt 99)] (world0 []) =
     (Returned (Msg (lit "collaboration id=99 not found"), NOT_FOUND), world0 []).
Proof.
  split.
  - apply (proj1 (post_validates_before_writing [(lit "name", VStr (lit "x"))] (world0 []))).
    reflexivity.
  - apply (proj1 (proj2 (post_validates_before_writing [(lit "collaboration_id", VInt 99)]
                           (world0 []))));
      reflexivity.
Defined.

(** C10: a [collaboration_id] that is present but falsy is answered as
    an absent one: the same bad-request response as for a payload
    without the key, the world unchanged, and the same answer whatever
    the directory of collaborations holds (it is not consulted). *)
Theorem post_falsy_id_as_absent (data : list (pystr * value)) (w : World) :
  dict_has data (lit "collaboration_id") = true ->
  truthy (dict_get data (lit "collaboration_id") VNone) = false ->
  Task.post data w =
  (Returned (Msg (lit "JSON should contain 'collaboration_id'"), BAD_REQUEST), w)
  /\ (forall data', dict_has data' (lit "collaboration_id") = false ->
      Task.post data' w = Task.post data w)
  /\ (forall cs,
      Task.post data (with_collaborations cs w) =
      (Returned (Msg (lit "JSON should contain 'collaboration_id'"), BAD_REQUEST),
       with_collaborations cs w)).
Proof.
  intros _ H. split; [|split].
  - apply post_missing, H.
  - intros data' H'. rewrite (post_missing data w H). apply post_missing.
    rewrite dict_get_absent by exact H'. reflexivity.
  - intros cs. apply post_missing, H.
Qed.

(** The falsy values: [None], [False], [0], and the empty string, list
    and dict. *)
Lemma falsy_values (v : value) :
  truthy v = false <->
  v = VNone \/ v = VBool false \/ v = VInt 0 \/ v = VStr [] \/ v = VList [] \/ v = VDict [].
Proof.
  split.
  - destruct v as [|[]|z|[|]|[|]|[|]]; simpl; try discriminate; auto 7.
    intros H. apply negb_false_iff, Z.eqb_eq in H. subst z. auto.
  - intros [->|[->|[->|[->|[->| ->]]]]]; reflexivity.
Qed.

Lemma post_falsy_id_as_absent_witness :
  Task.post [(lit "collaboration_id", VInt 0)] (world0 []) =
  (Returned (Msg (lit "JSON should contain 'collaboration_id'"), BAD_REQUEST), world0 [])
  /\ Task.post [(lit "collaboration_id", VStr [])] (world0 []) =
     (Returned (Msg (lit "JSON should contain 'collaboration_id'"), BAD_REQUEST), world0 [])
  /\ Task.post [(lit "collaboration_id", VNone)] (world0 []) =
     (Returned (Msg (lit "JSON should contain 'collaboration_id'"), BAD_REQUEST), world0 [])
  /\ Task.post [(lit "collaboration_id", VBool false)] (world0 []) =
     (Returned (Msg (lit "JSON should contain 'collaboration_id'"), BAD_REQUEST), world0 []).
Proof.
  split; [|split; [|split]].
  - apply (post_falsy_id_as_absent [(lit "collaboration_id", VInt 0)] (world0 []));
      reflexivity.
  - apply (post_falsy_id_as_absent [(lit "collaboration_id", VStr [])] (world0 []));
      reflexivity.
  - apply (post_falsy_id_as_absent [(lit "collaboration_id", VNone)] (world0 []));
      reflexivity.
  - apply (post_falsy_id_as_absent [(lit "collaboration_id", VBool false)] (world0 []));
      reflexivity.
Defined.

(** ** Creation: persistence in two commits *)

(** C1, as stated, fails.  In [world0 [false; true]] the first commit
    of [post] succeeds and the second (the one that writes the results)
    raises: the creation fails, yet the task of the attempted id 1 is
    found by [get], with none of the two results of its
    collaboration. *)
Lemma post_interrupted_leaves_task :
  let w := world0 [false; true] in
  let w' := snd (Task.post payload7 w) in
  resolve (VInt 7) w = Some collaboration7
  /\ List.length (db.Collaboration_nodes collaboration7) = 2%nat
  /\ db.next_task_id (store w) = 1%Z
  /\ fst (Task.post payload7 w) = Raised PersistenceFailure
  /\ status_of (fst (Task.get (Some 1%Z) None w')) = Some OK
  /\ fst (TaskResult.get 1%Z w') = Returned (ResultList [], OK).
Proof. vm_compute. repeat split. Qed.

(** C1, amended: [post] persists in two commits, the task first and its
    results second.  When the first commit fails nothing is written and
    [get] for the attempted id answers not-found; when both succeed the
    task is found with exactly one result per node; when only the
    second fails the task stays, found with no results. *)
Theorem post_commits_task_then_results
  (data : list (pystr * value)) (w : World) (c : db.Collaboration) :
  consistent (store w) = true ->
  truthy (dict_get data (lit "collaboration_id") VNone) = true ->
  resolve (dict_get data (lit "collaboration_id") VNone) w = Some c ->
  let i := db.next_task_id (store w) in
  let w' := snd (Task.post data w) in
  (fault_at 0 w = true ->
   fst (Task.post data w) = Raised PersistenceFailure
   /\ db.tasks (store w') = db.tasks (store w)
   /\ db.results (store w') = db.results (store w)
   /\ status_of (fst (Task.get (Some i) None w')) = Some NOT_FOUND)
  /\ (fault_at 0 w = false -> fault_at 1 w = true ->
      fst (Task.post data w) = Raised PersistenceFailure
      /\ fst (Task.get (Some i) (Some (lit "results")) w') =
         Returned (Dumped (One {| view_task := created data c w;
                                  view_results := Some [] |}), OK))
  /\ (fault_at 0 w = false -> fault_at 1 w = false ->
      status_of (fst (Task.post data w)) = Some OK
      /\ exists rs,
           fst (Task.get (Some i) (Some (lit "results")) w') =
           Returned (Dumped (One {| view_task := created data c w;
                                    view_results := Some rs |}), OK)
           /\ map db.TaskResult_node_id rs = map db.Node_id (db.Collaboration_nodes c)).
Proof.
  intros Hc H1 H2 i w'. subst i w'.
  pose proof (consistent_next_nonzero _ Hc) as Hnz.
  split; [|split].
  - intros F0. rewrite (post_first_fault _ _ _ H1 H2 F0). cbn [fst snd store db.tasks db.results].
    repeat split. rewrite get_missing; [reflexivity|]. apply (find_fresh _ Hc).
  - intros F0 F1. rewrite (post_second_fault _ _ _ H1 H2 F0 F1). cbn [fst snd].
    split; [reflexivity|].
    rewrite (get_one _ (Some (lit "results")) _ (created data c w));
      [|apply (find_created _ _ _ Hc)|exact Hnz].
    cbn [fst]. unfold view. cbn [created db.with_id db.Task_id store include_results].
    replace (str_eqb (lit "results") (lit "results")) with true by reflexivity.
    pose proof (results_for_fresh _ Hc) as HR. unfold db.results_for in *.
    cbn [db.results]. rewrite HR. reflexivity.
  - intros F0 F1. rewrite (post_ok _ _ _ H1 H2 Hc F0 F1). cbn [fst snd].
    split; [reflexivity|]. exists (fan_out data c w).
    rewrite (get_one _ (Some (lit "results")) _ (created data c w));
      [|apply (find_created _ _ _ Hc)|exact Hnz].
    cbn [fst]. unfold view, db.results_for. cbn [created db.with_id db.Task_id store db.results include_results].
    replace (str_eqb (lit "results") (lit "results")) with true by reflexivity.
    rewrite (results_for_created _ _ _ Hc). split; [reflexivity|apply fan_out_nodes].
Qed.

Lemma post_commits_task_then_results_witness :
  (fst (Task.post payload7 (world0 [true])) = Raised PersistenceFailure
   /\ status_of (fst (Task.get (Some 1%Z) None (snd (Task.post payload7 (world0 [true])))))
      = Some NOT_FOUND)
  /\ (exists rs,
        fst (Task.get (Some 1%Z) (Some (lit "results")) (snd (Task.post payload7 (world0 [])))) =
        Returned (Dumped (One {| view_task := created payload7 collaboration7 (world0 []);
                                 view_results := Some rs |}), OK)
        /\ map db.TaskResult_node_id rs = [1%Z; 2%Z]).
Proof.
  split.
  - destruct (proj1 (post_commits_task_then_results payload7 (world0 [true]) collaboration7
                       eq_refl eq_refl eq_refl) eq_refl) as (H1 & _ & _ & H2).
    split; [exact H1|exact H2].
  - destruct (proj2 (proj2 (post_commits_task_then_results payload7 (world0 []) collaboration7
                       eq_refl eq_refl eq_refl)) eq_refl eq_refl) as (_ & rs & H1 & H2).
    exists rs. split; [exact H1|exact H2].
Defined.

(** The only way [post] answers OK. *)
Lemma post_ok_inv (data : list (pystr * value)) (w w' : World) (b : body) :
  consistent (store w) = true ->
  Task.post data w = (Returned (b, OK), w') ->
  exists c,
    truthy (dict_get data (lit "collaboration_id") VNone) = true
    /\ resolve (dict_get data (lit "collaboration_id") VNone) w = Some c
    /\ fault_at 0 w = false /\ fault_at 1 w = false.
Proof.
  intros Hc H.
  destruct (truthy (dict_get data (lit "collaboration_id") VNone)) eqn:H1;
    [|rewrite post_missing in H by assumption; discriminate].
  destruct (resolve (dict_get data (lit "collaboration_id") VNone) w) as [c|] eqn:H2;
    [|rewrite post_unresolved in H by assumption; discriminate].
  destruct (fault_at 0 w) eqn:F0;
    [rewrite (post_first_fault _ _ _ H1 H2 F0) in H; discriminate|].
  destruct (fault_at 1 w) eqn:F1;
    [rewrite (post_second_fault _ _ _ H1 H2 F0 F1) in H; discriminate|].
  exists c. auto.
Qed.

(** ** Creation: one result per node *)

(** C3: after a successful [post] on a consistent store, the results
    that reference the new task are one per node of its collaboration as
    it was at the call, in the order of the nodes; no two results of the
    table have the same task and node; and the results of the task are
    the same whatever the directory of collaborations becomes later. *)
Theorem post_one_result_per_node
  (data : list (pystr * value)) (w w' : World) (b : body) :
  consistent (store w) = true ->
  Task.post data w = (Returned (b, OK), w') ->
  exists c t i,
    resolve (dict_get data (lit "collaboration_id") VNone) w = Some c
    /\ b = Dumped (One {| view_task := t; view_results := None |})
    /\ db.Task_id t = Some i
    /\ map db.TaskResult_node_id (db.results_for i (store w'))
       = map db.Node_id (db.Collaboration_nodes c)
    /\ List.length (db.results_for i (store w')) = List.length (db.Collaboration_nodes c)
    /\ NoDup (map pair_key (db.results (store w')))
    /\ (forall cs,
          fst (TaskResult.get i (with_collaborations cs w'))
          = Returned (ResultList (db.results_for i (store w')), OK)).
Proof.
  intros Hc H. destruct (post_ok_inv _ _ _ _ Hc H) as (c & H1 & H2 & F0 & F1).
  rewrite (post_ok _ _ _ H1 H2 Hc F0 F1) in H. injection H as Hb Hw.
  exists c, (created data c w), (db.next_task_id (store w)).
  assert (HR : db.results_for (db.next_task_id (store w)) (store w') = fan_out data c w).
  { subst w'. unfold db.results_for. cbn [store db.results]. apply results_for_created, Hc. }
  assert (HG : forall cs,
             fst (TaskResult.get (db.next_task_id (store w)) (with_collaborations cs w'))
             = Returned (ResultList (db.results_for (db.next_task_id (store w)) (store w')), OK)).
  { intros cs. rewrite results_get_run.
    replace (db.tasks (store (with_collaborations cs w'))) with (db.tasks (store w'))
      by reflexivity.
    subst w'. cbn [store db.tasks]. rewrite (find_created _ _ _ Hc). reflexivity. }
  split; [exact H2|]. split; [symmetry; exact Hb|]. split; [reflexivity|].
  split; [rewrite HR; apply fan_out_nodes|]. split.
  { rewrite HR, <- (List.length_map db.TaskResult_node_id), fan_out_nodes.
    apply List.length_map. }
  split; [|exact HG].
  pose proof (consistent_after_fan_out data c w (tl (tl (db.faults (store w)))) Hc
                (resolve_in _ _ _ H2)) as Hc'.
  apply consistent_spec in Hc' as (_ & _ & _ & Hk & _). subst w'. exact Hk.
Qed.

Lemma post_one_result_per_node_witness :
  exists c t i,
    resolve (dict_get payload7 (lit "collaboration_id") VNone) (world0 []) = Some c
    /\ Dumped (One {| view_task := created payload7 collaboration7 (world0 []);
                      view_results := None |})
       = Dumped (One {| view_task := t; view_results := None |})
    /\ db.Task_id t = Some i
    /\ map db.TaskResult_node_id (db.results_for i (store world1))
       = map db.Node_id (db.Collaboration_nodes c)
    /\ List.length (db.results_for i (store world1)) = List.length (db.Collaboration_nodes c)
    /\ NoDup (map pair_key (db.results (store world1)))
    /\ (forall cs,
          fst (TaskResult.get i (with_collaborations cs world1))
          = Returned (ResultList (db.results_for i (store world1)), OK)).
Proof.
  apply (post_one_result_per_node payload7 (world0 []) world1); reflexivity.
Defined.

(** ** Creation: the notification *)

(** C4: on a consistent store, [post] succeeds whenever the id is
    truthy and resolves and both commits go through, whatever the
    number of nodes; when it succeeds the task is in the store and
    exactly one event was sent, after the events sent before: the event
    [new_task] with the id of the new task as payload, to the room
    [collaboration_<collaboration_id>] in the namespace [/tasks]; and
    when it does not succeed no event was sent. *)
Theorem post_notifies_once (data : list (pystr * value)) (w : World) :
  consistent (store w) = true ->
  (forall c,
     truthy (dict_get data (lit "collaboration_id") VNone) = true ->
     resolve (dict_get data (lit "collaboration_id") VNone) w = Some c ->
     fault_at 0 w = false -> fault_at 1 w = false ->
     status_of (fst (Task.post data w)) = Some OK)
  /\ match Task.post data w with
     | (Returned (b, OK), w') =>
         exists c t i,
           resolve (dict_get data (lit "collaboration_id") VNone) w = Some c
           /\ b = Dumped (One {| view_task := t; view_results := None |})
           /\ db.Task_id t = Some i
           /\ db.Task_collaboration_id t = db.Collaboration_id c
           /\ In t (db.tasks (store w'))
           /\ List.length (db.results_for i (store w')) = List.length (db.Collaboration_nodes c)
           /\ emitted w' = emitted w ++
                [{| Event_name := lit "new_task";
                    Event_payload := Some i;
                    Event_room := lit "collaboration_" ++ str_of_int (db.Collaboration_id c);
                    Event_namespace := lit "/tasks" |}]
     | (_, w') => emitted w' = emitted w
     end.
Proof.
  intros Hc. split.
  { intros c H1 H2 F0 F1. rewrite (post_ok _ _ _ H1 H2 Hc F0 F1). reflexivity. }
  destruct (truthy (dict_get data (lit "collaboration_id") VNone)) eqn:H1;
    [|rewrite post_missing by assumption; reflexivity].
  destruct (resolve (dict_get data (lit "collaboration_id") VNone) w) as [c|] eqn:H2;
    [|rewrite post_unresolved by assumption; reflexivity].
  destruct (fault_at 0 w) eqn:F0;
    [rewrite (post_first_fault _ _ _ H1 H2 F0); reflexivity|].
  destruct (fault_at 1 w) eqn:F1;
    [rewrite (post_second_fault _ _ _ H1 H2 F0 F1); reflexivity|].
  rewrite (post_ok _ _ _ H1 H2 Hc F0 F1).
  exists c, (created data c w), (db.next_task_id (store w)).
  cbn [store emitted db.tasks].
  repeat (split; [reflexivity|]). split; [apply in_or_app; right; left; reflexivity|].
  split; [|reflexivity].
  unfold db.results_for. cbn [db.results]. rewrite (results_for_created _ _ _ Hc).
  rewrite <- (List.length_map db.TaskResult_node_id), fan_out_nodes. apply List.length_map.
Qed.

(** The witness is a collaboration without nodes: the task is created
    with no results and the event is sent all the same. *)
Lemma post_notifies_once_witness :
  status_of (fst (Task.post payload8 (world0 []))) = Some OK
  /\ db.results (store (snd (Task.post payload8 (world0 [])))) = []
  /\ emitted (snd (Task.post payload8 (world0 []))) =
     [{| Event_name := lit "new_task";
         Event_payload := Some 1%Z;
         Event_room := lit "collaboration_8";
         Event_namespace := lit "/tasks" |}].
Proof.
  split; [|split; vm_compute; reflexivity].
  pose proof (post_notifies_once payload8 (world0 []) eq_refl) as H.
  destruct H as [H _].
  apply (H collaboration8); vm_compute; reflexivity.
Defined.

(** ** Reading the results of a task *)

(** C8: [getResults] answers not-found exactly when no task of the
    store has the id; otherwise it answers OK with the rows of results
    that reference the task, which may be none; and it leaves the
    world as it found it. *)
Theorem results_get_not_found_iff (id : Z) (w : World) :
  (status_of (fst (TaskResult.get id w)) = Some NOT_FOUND
   <-> existsb (db.has_id id) (db.tasks (store w)) = false)
  /\ (existsb (db.has_id id) (db.tasks (store w)) = true ->
      fst (TaskResult.get id w) = Returned (ResultList (db.results_for id (store w)), OK))
  /\ snd (TaskResult.get id w) = w.
Proof.
  rewrite results_get_run, existsb_find_none.
  destruct (find (db.has_id id) (db.tasks (store w))) as [t|] eqn:E; cbn [fst snd status_of].
  - split; [split; discriminate|]. split; reflexivity.
  - split; [split; reflexivity|]. split; [|reflexivity].
    intros H. apply not_false_iff_true in H. exfalso. apply H.
    apply existsb_find_none. exact E.
Qed.

(** A task of a collaboration without nodes has an empty collection of
    results, and a missing task is not found. *)
Lemma results_get_not_found_iff_witness :
  fst (TaskResult.get 1 (snd (Task.post payload8 (world0 [])))) = Returned (ResultList [], OK)
  /\ status_of (fst (TaskResult.get 2 (snd (Task.post payload8 (world0 []))))) = Some NOT_FOUND.
Proof.
  split.
  - apply (proj1 (proj2 (results_get_not_found_iff 1 (snd (Task.post payload8 (world0 []))))));
      reflexivity.
  - apply (proj1 (results_get_not_found_iff 2 (snd (Task.post payload8 (world0 [])))));
      reflexivity.
Defined.

(** ** Reading tasks *)

(** With an id, [get] answers not-found when no task has the id and the
    view of the task otherwise, with its results iff [include=results]. *)
Lemma get_with_id (id : Z) (include : option pystr) (w : World) :
  consistent (store w) = true ->
  Task.get (Some id) include w =
  match find (db.has_id id) (db.tasks (store w)) with
  | None => (Returned (Msg (lit "task id={} is not found"), NOT_FOUND), w)
  | Some t =>
      (Returned
         (Dumped (One {| view_task := t;
                         view_results :=
                           if include_results include
                           then Some (db.results_for id (store w)) else None |}), OK), w)
  end.
Proof.
  intros Hc. destruct (find (db.has_id id) (db.tasks (store w))) as [t|] eqn:E.
  - pose proof (find_has_id _ _ _ E) as [Hid Hin].
    rewrite (get_one _ include _ t E).
    + unfold view. rewrite Hid. destruct (include_results include); reflexivity.
    + apply consistent_spec in Hc as (_ & Ht & _).
      apply Ht, id_below_spec in Hin as [i [Hi Hlt]]. rewrite Hid in Hi. injection Hi as ->. lia.
  - apply get_missing, E.
Qed.

(** C7, at the failing input: without an id and with no task in the
    store, [get] answers not-found (with the message of a missing id)
    where the claim has it return the empty collection. *)
Theorem get_all_of_empty_store_not_found :
  Task.get None None (world0 []) =
  (Returned (Msg (lit "task id={} is not found"), NOT_FOUND), world0 [])
  /\ Task.get None (Some (lit "results")) (world0 []) =
     (Returned (Msg (lit "task id={} is not found"), NOT_FOUND), world0 []).
Proof. split; reflexivity. Qed.

(** Without an id and with tasks in the store, [get] returns them all. *)
Lemma get_all_of_world1 :
  exists t,
    db.tasks (store world1) = [t]
    /\ Task.get None None world1 =
       (Returned (Dumped (Many [{| view_task := t; view_results := None |}]), OK), world1).
Proof.
  exists (created payload7 collaboration7 (world0 [])). split; vm_compute; reflexivity.
Qed.

(** C9, at the failing input: the message [get] gives for the missing
    id 7 is the template itself, without the id; the messages of
    [delete] and of the results resource for the same id name it. *)
Theorem get_message_names_no_id :
  fst (Task.get (Some 7%Z) None (world0 [])) =
  Returned (Msg (lit "task id={} is not found"), NOT_FOUND)
  /\ contains (str_of_int 7) (lit "task id={} is not found") = false
  /\ fst (Task.delete 7 (world0 [])) = Returned (Msg (lit "task id=7 not found"), NOT_FOUND)
  /\ fst (TaskResult.get 7 (world0 [])) = Returned (Msg (lit "task id=7 not found"), NOT_FOUND).
Proof. repeat split. Qed.

(** ** Deleting a task *)

(** [delete] never touches the table of results. *)
Lemma delete_keeps_results (id : Z) (w : World) :
  db.results (store (snd (Task.delete id w))) = db.results (store w).
Proof.
  rewrite delete_run.
  destruct (find (db.has_id id) (db.tasks (store w))); [|reflexivity].
  destruct (fault_at 0 w); reflexivity.
Qed.

(** A missing id is answered not-found and nothing changes. *)
Lemma delete_missing (id : Z) (w : World) :
  existsb (db.has_id id) (db.tasks (store w)) = false ->
  Task.delete id w =
  (Returned (Msg (format (lit "task id={} not found") (VInt id)), NOT_FOUND), w).
Proof. intros H. apply existsb_find_none in H. rewrite delete_run, H. reflexivity. Qed.

Lemma existsb_filter_negb (A : Type) (f : A -> bool) (l : list A) :
  existsb f (filter (fun x => negb (f x)) l) = false.
Proof.
  induction l as [|x l IH]; [reflexivity|]. simpl.
  destruct (f x) eqn:Hx; simpl; [exact IH|rewrite Hx; exact IH].
Qed.

(** After a successful delete the task is gone: the results resource
    answers not-found for its id. *)
Lemma delete_then_results_not_found (id : Z) (w : World) :
  status_of (fst (Task.delete id w)) = Some OK ->
  status_of (fst (TaskResult.get id (snd (Task.delete id w)))) = Some NOT_FOUND.
Proof.
  rewrite delete_run.
  destruct (find (db.has_id id) (db.tasks (store w))) as [t|] eqn:E; [|discriminate].
  destruct (fault_at 0 w); [discriminate|]. intros _. cbn [snd].
  rewrite results_get_run. cbn [store db.tasks].
  pose proof (existsb_filter_negb _ (db.has_id id) (db.tasks (store w))) as Hg.
  apply existsb_find_none in Hg. rewrite Hg. reflexivity.
Qed.


(** ** Creation: the stored input *)

Lemma dict_get_decoded (data : list (pystr * value)) (key : pystr) (default : value) :
  decoded (VDict data) = true -> decoded default = true ->
  decoded (dict_get data key default) = true.
Proof.
  cbn [decoded]. intros H Hdef. apply andb_true_iff in H as [_ H].
  induction data as [|[k v] data IH]; [exact Hdef|].
  cbn [forallb fst snd dict_get] in *. apply andb_true_iff in H as [Hkv H].
  apply andb_true_iff in Hkv as [_ Hv].
  destruct (str_eqb k key); [exact Hv|exact (IH H)].
Qed.

Lemma created_input (data : list (pystr * value)) (c : db.Collaboration) (w : World) :
  db.Task_input (created data c w) =
  if negb (is_str (dict_get data (lit "input") (VStr [])))
  then VStr (dumps (dict_get data (lit "input") (VStr [])))
  else dict_get data (lit "input") (VStr []).
Proof. reflexivity. Qed.



Example post_input_object :
  map db.Task_input (db.tasks (store world1))
  = [VStr ([123; 34; 97; 34]%N ++ lit ": 1}")]
  /\ loads ([123; 34; 97; 34]%N ++ lit ": 1}") = Some (VDict [(lit "a", VInt 1)]).
Proof. split; vm_compute; reflexivity. Qed.

Example post_input_string :
  map db.Task_input (db.tasks (store (snd (Task.post payload8 (world0 [])))))
  = [VStr (lit "raw")].
Proof. reflexivity. Qed.

(** * Further properties of the handlers *)

(** ** Reading never writes *)

Lemma get_world (id : option Z) (include : option pystr) (w : World) :
  snd (Task.get id include w) = w.
Proof.
  unfold Task.get, db.Task_get. unfold bind at 1. rewrite in_db_gets.
  destruct (db.found_truthy _) eqn:E; cbn [negb]; [|reflexivity].
  destruct w as [st ev]. cbn [store] in *.
  unfold bind, in_db, dump, ret. cbn [store emitted].
  destruct id as [i|].
  - destruct (find (db.has_id i) (db.tasks st)); [|discriminate].
    destruct (i =? 0)%Z; reflexivity.
  - reflexivity.
Qed.

Lemma results_get_world (id : Z) (w : World) : snd (TaskResult.get id w) = w.
Proof.
  rewrite results_get_run. destruct (find (db.has_id id) (db.tasks (store w))); reflexivity.
Qed.

(** X1: [get] and the results resource leave the world exactly as they
    found it, whatever they answer (also when [get] raises), so asking
    again gives the same answer. *)
Theorem reads_never_write (w : World) :
  (forall id include,
     snd (Task.get id include w) = w
     /\ Task.get id include (snd (Task.get id include w)) = Task.get id include w)
  /\ (forall id,
        snd (TaskResult.get id w) = w
        /\ TaskResult.get id (snd (TaskResult.get id w)) = TaskResult.get id w).
Proof.
  split.
  - intros id include. rewrite get_world. split; reflexivity.
  - intros id. rewrite results_get_world. split; reflexivity.
Qed.

(** ** Consistency *)

(** X2: every handler keeps a consistent store consistent, whatever the
    request and whether or not a commit fails. *)
Theorem handlers_keep_consistency (w : World) :
  consistent (store w) = true ->
  (forall data, consistent (store (snd (Task.post data w))) = true)
  /\ (forall id, consistent (store (snd (Task.delete id w))) = true)
  /\ (forall id include, consistent (store (snd (Task.get id include w))) = true)
  /\ (forall id, consistent (store (snd (TaskResult.get id w))) = true).
Proof.
  intros Hc. split; [|split; [|split]].
  - intros data. apply consistent_post, Hc.
  - intros id. apply consistent_delete, Hc.
  - intros id include. rewrite get_world. exact Hc.
  - intros id. rewrite results_get_world. exact Hc.
Qed.

Lemma handlers_keep_consistency_witness :
  consistent (store (snd (Task.post payload7 (world0 [false; true])))) = true
  /\ consistent (store (snd (Task.delete 1 world1))) = true.
Proof.
  split.
  - apply (proj1 (handlers_keep_consistency (world0 [false; true]) eq_refl) payload7).
  - apply (proj1 (proj2 (handlers_keep_consistency world1 eq_refl)) 1%Z).
Defined.

(** ** Reading tasks *)

(** X3: on a consistent store, [get] with an id never raises: it
    answers not-found exactly when no task has the id, and otherwise OK
    with the view of that one task, which embeds the results that
    reference the task iff [include] is [results]. *)
Theorem get_one_task (id : Z) (include : option pystr) (w : World) :
  consistent (store w) = true ->
  (status_of (fst (Task.get (Some id) include w)) = Some NOT_FOUND
   <-> existsb (db.has_id id) (db.tasks (store w)) = false)
  /\ (existsb (db.has_id id) (db.tasks (store w)) = true ->
      exists t,
        In t (db.tasks (store w)) /\ db.Task_id t = Some id
        /\ fst (Task.get (Some id) include w) =
           Returned
             (Dumped (One {| view_task := t;
                             view_results :=
                               if include_results include
                               then Some (db.results_for id (store w)) else None |}), OK)).
Proof.
  intros Hc. rewrite (get_with_id id include w Hc), existsb_find_none.
  destruct (find (db.has_id id) (db.tasks (store w))) as [t|] eqn:E; cbn [fst status_of].
  - split; [split; discriminate|]. intros _. exists t.
    destruct (find_has_id _ _ _ E) as [Hid Hin]. repeat split; assumption.
  - split; [split; reflexivity|]. intros H. apply not_false_iff_true in H.
    exfalso. apply H. apply existsb_find_none. exact E.
Qed.

Lemma get_one_task_witness :
  status_of (fst (Task.get (Some 2%Z) None world1)) = Some NOT_FOUND
  /\ exists t,
       In t (db.tasks (store world1)) /\ db.Task_id t = Some 1%Z
       /\ fst (Task.get (Some 1%Z) (Some (lit "results")) world1) =
          Returned
            (Dumped (One {| view_task := t;
                            view_results := Some (db.results_for 1 (store world1)) |}), OK).
Proof.
  split.
  - apply (proj1 (get_one_task 2 None world1 eq_refl)). reflexivity.
  - apply (proj2 (get_one_task 1 (Some (lit "results")) world1 eq_refl)). reflexivity.
Defined.

(** X4: without an id, on a store that holds at least one task, [get]
    answers OK with one view per task, in the order of the table; every
    view embeds the results of its task iff [include] is [results]. *)
Theorem get_collection (include : option pystr) (w : World) :
  consistent (store w) = true ->
  db.tasks (store w) <> [] ->
  exists views,
    Task.get None include w = (Returned (Dumped (Many views), OK), w)
    /\ map view_task views = db.tasks (store w)
    /\ Forall (fun v =>
                 exists i, db.Task_id (view_task v) = Some i
                   /\ view_results v =
                      if include_results include
                      then Some (db.results_for i (store w)) else None) views.
Proof.
  intros Hc Hne. rewrite get_all.
  destruct (db.tasks (store w)) as [|t0 ts0] eqn:E; [congruence|]. rewrite <- E. clear Hne.
  eexists. split; [reflexivity|]. split.
  - rewrite map_map. cbn [view view_task]. apply map_id.
  - apply consistent_spec in Hc as (_ & Ht & _). apply Forall_forall.
    intros v Hv. apply in_map_iff in Hv as [t [<- Hin]].
    apply Ht, id_below_spec in Hin as [i [Hi _]]. exists i. split; [exact Hi|].
    unfold view. cbn [view_task view_results]. rewrite Hi.
    destruct (include_results include); reflexivity.
Qed.

Lemma get_collection_witness :
  exists views,
    Task.get None (Some (lit "results")) world1 = (Returned (Dumped (Many views), OK), world1)
    /\ map view_task views = db.tasks (store world1)
    /\ Forall (fun v =>
                 exists i, db.Task_id (view_task v) = Some i
                   /\ view_results v =
                      if include_results (Some (lit "results"))
                      then Some (db.results_for i (store world1)) else None) views.
Proof.
  apply (get_collection (Some (lit "results")) world1 eq_refl). discriminate.
Defined.

(** ** Deleting a task *)




Lemma not_found_message (id : Z) :
  format (lit "task id={} not found") (VInt id)
  = lit "task id=" ++ str_of_int id ++ lit " not found".
Proof. reflexivity. Qed.



(** X6: [delete] ends in one of three ways only.  It answers OK when a
    task has the id and the commit goes through; it answers not-found,
    with the world unchanged, exactly when no task has the id; and it
    raises the failure of the commit, with every table and the events
    unchanged, when a task has the id and the commit fails. *)
Theorem delete_outcomes (id : Z) (w : World) :
  match Task.delete id w with
  | (Returned (_, OK), _) =>
      existsb (db.has_id id) (db.tasks (store w)) = true /\ fault_at 0 w = false
  | (Returned (_, NOT_FOUND), w') =>
      existsb (db.has_id id) (db.tasks (store w)) = false /\ w' = w
  | (Returned (_, BAD_REQUEST), _) => False
  | (Raised e, w') =>
      e = PersistenceFailure
      /\ existsb (db.has_id id) (db.tasks (store w)) = true /\ fault_at 0 w = true
      /\ db.tasks (store w') = db.tasks (store w)
      /\ db.results (store w') = db.results (store w)
      /\ db.collaborations (store w') = db.collaborations (store w)
      /\ emitted w' = emitted w
  end.
Proof.
  rewrite delete_run.
  destruct (find (db.has_id id) (db.tasks (store w))) as [t|] eqn:E.
  - assert (Hex : existsb (db.has_id id) (db.tasks (store w)) = true).
    { apply not_false_iff_true. intros H. apply existsb_find_none in H. congruence. }
    destruct (fault_at 0 w); repeat split; assumption.
  - apply existsb_find_none in E. split; [exact E|reflexivity].
Qed.

(** ** Creating a task *)

Lemma find_app_old (A : Type) (f : A -> bool) (l l' : list A) (x : A) :
  find f l = Some x -> find f (l ++ l') = Some x.
Proof.
  induction l as [|y l IH]; simpl; [discriminate|]. destruct (f y); auto.
Qed.

Lemma results_for_other (data : list (pystr * value)) (c : db.Collaboration) (w : World) (j : Z) :
  j <> db.next_task_id (store w) ->
  filter (fun r => opt_Z_eqb (db.TaskResult_task_id r) (Some j))
    (db.results (store w) ++ fan_out data c w)
  = db.results_for j (store w).
Proof.
  intros Hj. rewrite filter_app.
  assert (H : filter (fun r => opt_Z_eqb (db.TaskResult_task_id r) (Some j))
                (fan_out data c w) = []).
  { pose proof (fan_out_task data c w) as HT.
    induction (fan_out data c w) as [|r l IH]; [reflexivity|]. simpl.
    rewrite (HT r (or_introl eq_refl)). simpl.
    destruct (Z.eqb_spec (db.next_task_id (store w)) j); [congruence|].
    apply IH. intros r' Hr'. apply HT. right. exact Hr'. }
  rewrite H. apply List.app_nil_r.
Qed.



(** X8: the task a successful [post] returns has the next id of the
    store, the id of the collaboration that was resolved, the status
    [open], and the name, description and image of the payload, each the
    empty string when its key is absent; [get] with that id returns the
    same task afterwards. *)
Theorem post_fills_task (data : list (pystr * value)) (w w' : World) (b : body) :
  consistent (store w) = true ->
  Task.post data w = (Returned (b, OK), w') ->
  exists c t,
    resolve (dict_get data (lit "collaboration_id") VNone) w = Some c
    /\ b = Dumped (One {| view_task := t; view_results := None |})
    /\ db.Task_id t = Some (db.next_task_id (store w))
    /\ db.Task_collaboration_id t = db.Collaboration_id c
    /\ db.Task_status t = lit "open"
    /\ db.Task_name t = dict_get data (lit "name") (VStr [])
    /\ db.Task_description t = dict_get data (lit "description") (VStr [])
    /\ db.Task_image t = dict_get data (lit "image") (VStr [])
    /\ (dict_has data (lit "name") = false -> db.Task_name t = VStr [])
    /\ (dict_has data (lit "description") = false -> db.Task_description t = VStr [])
    /\ (dict_has data (lit "image") = false -> db.Task_image t = VStr [])
    /\ fst (Task.get (Some (db.next_task_id (store w))) None w') =
       Returned (Dumped (One {| view_task := t; view_results := None |}), OK).
Proof.
  intros Hc H. destruct (post_ok_inv _ _ _ _ Hc H) as (c & H1 & H2 & F0 & F1).
  rewrite (post_ok _ _ _ H1 H2 Hc F0 F1) in H. injection H as Hb Hw.
  exists c, (created data c w). split; [exact H2|]. split; [symmetry; exact Hb|].
  do 6 (split; [reflexivity|]).
  split; [intros Ha; cbn [created db.with_id drafted db.set_status db.set_input db.set_image
                           db.set_description db.set_name db.Task_name];
          apply dict_get_absent, Ha|].
  split; [intros Ha; cbn [created db.with_id drafted db.set_status db.set_input db.set_image
                           db.set_description db.set_name db.Task_description];
          apply dict_get_absent, Ha|].
  split; [intros Ha; cbn [created db.with_id drafted db.set_status db.set_input db.set_image
                           db.set_description db.set_name db.Task_image];
          apply dict_get_absent, Ha|].
  subst w'.
  rewrite (get_one _ None _ (created data c w));
    [reflexivity|apply (find_created _ _ _ Hc)|exact (consistent_next_nonzero _ Hc)].
Qed.

Lemma post_fills_task_witness :
  exists c t,
    resolve (dict_get payload7 (lit "collaboration_id") VNone) (world0 []) = Some c
    /\ Dumped (One {| view_task := created payload7 collaboration7 (world0 []);
                      view_results := None |})
       = Dumped (One {| view_task := t; view_results := None |})
    /\ db.Task_id t = Some (db.next_task_id (store (world0 [])))
    /\ db.Task_collaboration_id t = db.Collaboration_id c
    /\ db.Task_status t = lit "open"
    /\ db.Task_name t = dict_get payload7 (lit "name") (VStr [])
    /\ db.Task_description t = dict_get payload7 (lit "description") (VStr [])
    /\ db.Task_image t = dict_get payload7 (lit "image") (VStr [])
    /\ (dict_has payload7 (lit "name") = false -> db.Task_name t = VStr [])
    /\ (dict_has payload7 (lit "description") = false -> db.Task_description t = VStr [])
    /\ (dict_has payload7 (lit "image") = false -> db.Task_image t = VStr [])
    /\ fst (Task.get (Some (db.next_task_id (store (world0 [])))) None world1) =
       Returned (Dumped (One {| view_task := t; view_results := None |}), OK).
Proof. apply (post_fills_task payload7 (world0 []) world1); reflexivity. Defined.

(** X9: the input a successful [post] stores is always a string: the
    empty string when the payload has no input, and the text [null]
    when the payload gives the input as [None]. *)
Theorem post_input_is_string (data : list (pystr * value)) (w w' : World) (b : body) :
  consistent (store w) = true ->
  Task.post data w = (Returned (b, OK), w') ->
  exists t,
    b = Dumped (One {| view_task := t; view_results := None |})
    /\ In t (db.tasks (store w'))
    /\ is_str (db.Task_input t) = true
    /\ (dict_has data (lit "input") = false -> db.Task_input t = VStr [])
    /\ (dict_get data (lit "input") (VStr []) = VNone -> db.Task_input t = VStr (lit "null")).
Proof.
  intros Hc H. destruct (post_ok_inv _ _ _ _ Hc H) as (c & H1 & H2 & F0 & F1).
  rewrite (post_ok _ _ _ H1 H2 Hc F0 F1) in H. injection H as Hb Hw.
  exists (created data c w). split; [symmetry; exact Hb|]. split.
  { subst w'. cbn [store db.tasks]. apply in_or_app. right. left. reflexivity. }
  rewrite created_input. split; [|split].
  - destruct (is_str (dict_get data (lit "input") (VStr []))) eqn:E; [exact E|reflexivity].
  - intros Ha. rewrite (dict_get_absent _ _ _ Ha). reflexivity.
  - intros Hn. rewrite Hn. reflexivity.
Qed.

Lemma post_input_is_string_witness :
  exists t,
    Dumped (One {| view_task := created [(lit "collaboration_id", VInt 8); (lit "input", VNone)]
                                  collaboration8 (world0 []);
                   view_results := None |})
    = Dumped (One {| view_task := t; view_results := None |})
    /\ In t (db.tasks (store (snd (Task.post [(lit "collaboration_id", VInt 8);
                                             (lit "input", VNone)] (world0 [])))))
    /\ is_str (db.Task_input t) = true
    /\ (dict_has [(lit "collaboration_id", VInt 8); (lit "input", VNone)] (lit "input") = false ->
        db.Task_input t = VStr [])
    /\ (dict_get [(lit "collaboration_id", VInt 8); (lit "input", VNone)] (lit "input") (VStr [])
        = VNone -> db.Task_input t = VStr (lit "null")).
Proof.
  apply (post_input_is_string [(lit "collaboration_id", VInt 8); (lit "input", VNone)]
           (world0 []) (snd (Task.post [(lit "collaboration_id", VInt 8); (lit "input", VNone)]
                               (world0 []))));
    vm_compute; reflexivity.
Defined.

(** X10: a successful [post] adds rows and changes none: the tasks and
    results that were in the store stay in place before the new rows,
    every older task is found as before with the same results, and the
    directory of collaborations is not touched. *)
Theorem post_keeps_existing_rows (data : list (pystr * value)) (w w' : World) (b : body) :
  consistent (store w) = true ->
  Task.post data w = (Returned (b, OK), w') ->
  (exists t new,
     db.tasks (store w') = db.tasks (store w) ++ [t]
     /\ db.results (store w') = db.results (store w) ++ new)
  /\ db.collaborations (store w') = db.collaborations (store w)
  /\ (forall j t0,
        find (db.has_id j) (db.tasks (store w)) = Some t0 ->
        find (db.has_id j) (db.tasks (store w')) = Some t0
        /\ db.results_for j (store w') = db.results_for j (store w)).
Proof.
  intros Hc H. destruct (post_ok_inv _ _ _ _ Hc H) as (c & H1 & H2 & F0 & F1).
  rewrite (post_ok _ _ _ H1 H2 Hc F0 F1) in H. injection H as Hb Hw. subst w'.
  cbn [store db.tasks db.results db.collaborations].
  split; [exists (created data c w), (fan_out data c w); split; reflexivity|].
  split; [reflexivity|].
  intros j t0 Hf. split; [apply find_app_old, Hf|].
  unfold db.results_for at 1. cbn [db.results]. apply results_for_other.
  intros ->. rewrite (find_fresh _ Hc) in Hf. discriminate.
Qed.

Lemma post_keeps_existing_rows_witness :
  (exists t new,
     db.tasks (store (snd (Task.post payload8 world1))) = db.tasks (store world1) ++ [t]
     /\ db.results (store (snd (Task.post payload8 world1))) = db.results (store world1) ++ new)
  /\ db.collaborations (store (snd (Task.post payload8 world1))) = db.collaborations (store world1)
  /\ (forall j t0,
        find (db.has_id j) (db.tasks (store world1)) = Some t0 ->
        find (db.has_id j) (db.tasks (store (snd (Task.post payload8 world1)))) = Some t0
        /\ db.results_for j (store (snd (Task.post payload8 world1)))
           = db.results_for j (store world1)).
Proof.
  apply (post_keeps_existing_rows payload8 world1 (snd (Task.post payload8 world1))
           (Dumped (One {| view_task := created payload8 collaboration8 world1;
                           view_results := None |})));
    vm_compute; reflexivity.
Defined.

(** X11: two successful [post]s in a row give two tasks with
    consecutive ids; the second leaves the first task and its results as
    they were, and the two events are sent in the order of the
    creations, each with the id of its task. *)
Theorem post_twice (d1 d2 : list (pystr * value)) (w w1 w2 : World) (b1 b2 : body) :
  consistent (store w) = true ->
  Task.post d1 w = (Returned (b1, OK), w1) ->
  Task.post d2 w1 = (Returned (b2, OK), w2) ->
  exists t1 t2 i room1 room2,
    b1 = Dumped (One {| view_task := t1; view_results := None |})
    /\ b2 = Dumped (One {| view_task := t2; view_results := None |})
    /\ db.Task_id t1 = Some i
    /\ db.Task_id t2 = Some (i + 1)%Z
    /\ db.results_for i (store w2) = db.results_for i (store w1)
    /\ fst (Task.get (Some i) None w2) =
       Returned (Dumped (One {| view_task := t1; view_results := None |}), OK)
    /\ emitted w2 = emitted w ++
         [{| Event_name := lit "new_task"; Event_payload := Some i;
             Event_room := room1; Event_namespace := lit "/tasks" |};
          {| Event_name := lit "new_task"; Event_payload := Some (i + 1)%Z;
             Event_room := room2; Event_namespace := lit "/tasks" |}].
Proof.
  intros Hc Hp1 Hp2.
  pose proof (consistent_post d1 w Hc) as Hc1. rewrite Hp1 in Hc1. cbn [snd] in Hc1.
  destruct (post_ok_inv _ _ _ _ Hc Hp1) as (c1 & A1 & A2 & A3 & A4).
  destruct (post_ok_inv _ _ _ _ Hc1 Hp2) as (c2 & B1 & B2 & B3 & B4).
  rewrite (post_ok _ _ _ A1 A2 Hc A3 A4) in Hp1. injection Hp1 as Hb1 Hw1.
  rewrite (post_ok _ _ _ B1 B2 Hc1 B3 B4) in Hp2. injection Hp2 as Hb2 Hw2.
  assert (Hn : db.next_task_id (store w1) = (db.next_task_id (store w) + 1)%Z)
    by (rewrite <- Hw1; reflexivity).
  assert (Hf1 : find (db.has_id (db.next_task_id (store w))) (db.tasks (store w1))
                = Some (created d1 c1 w)).
  { rewrite <- Hw1. cbn [store db.tasks]. apply (find_created _ _ _ Hc). }
  exists (created d1 c1 w), (created d2 c2 w1), (db.next_task_id (store w)).
  exists (lit "collaboration_" ++ str_of_int (db.Collaboration_id c1)),
         (lit "collaboration_" ++ str_of_int (db.Collaboration_id c2)).
  split; [symmetry; exact Hb1|]. split; [symmetry; exact Hb2|].
  split; [reflexivity|]. split; [cbn [created db.with_id db.Task_id]; rewrite Hn; reflexivity|].
  split.
  { rewrite <- Hw2. unfold db.results_for at 1. cbn [store db.results].
    apply results_for_other. rewrite Hn. lia. }
  split.
  { rewrite (get_one _ None _ (created d1 c1 w)).
    - reflexivity.
    - rewrite <- Hw2. cbn [store db.tasks]. apply find_app_old, Hf1.
    - exact (consistent_next_nonzero _ Hc). }
  rewrite <- Hw2. cbn [emitted]. rewrite <- Hw1 at 1. cbn [emitted].
  rewrite <- app_assoc. unfold new_task_event. cbn [app created db.with_id db.Task_id
    db.Task_collaboration_id drafted db.set_status db.set_input db.set_image
    db.set_description db.set_name db.Task_new].
  rewrite Hn. reflexivity.
Qed.

Lemma post_twice_witness :
  exists t1 t2 i room1 room2,
    Dumped (One {| view_task := created payload7 collaboration7 (world0 []);
                   view_results := None |})
    = Dumped (One {| view_task := t1; view_results := None |})
    /\ Dumped (One {| view_task := created payload8 collaboration8 world1;
                      view_results := None |})
       = Dumped (One {| view_task := t2; view_results := None |})
    /\ db.Task_id t1 = Some i
    /\ db.Task_id t2 = Some (i + 1)%Z
    /\ db.results_for i (store (snd (Task.post payload8 world1))) = db.results_for i (store world1)
    /\ fst (Task.get (Some i) None (snd (Task.post payload8 world1))) =
       Returned (Dumped (One {| view_task := t1; view_results := None |}), OK)
    /\ emitted (snd (Task.post payload8 world1)) = emitted (world0 []) ++
         [{| Event_name := lit "new_task"; Event_payload := Some i;
             Event_room := room1; Event_namespace := lit "/tasks" |};
          {| Event_name := lit "new_task"; Event_payload := Some (i + 1)%Z;
             Event_room := room2; Event_namespace := lit "/tasks" |}].
Proof.
  apply (post_twice payload7 payload8 (world0 []) world1 (snd (Task.post payload8 world1)));
    vm_compute; reflexivity.
Defined.

(** ** The messages of the failures *)

Lemma starts_with_app (n b : pystr) : starts_with n (n ++ b) = true.
Proof.
  induction n as [|c n IH]; [reflexivity|]. cbn [app starts_with].
  rewrite N.eqb_refl. exact IH.
Qed.

Lemma contains_app (n a b : pystr) : contains n (a ++ n ++ b) = true.
Proof.
  induction a as [|c a IH].
  - cbn [app]. destruct (n ++ b) eqn:E; cbn [contains]; rewrite <- E, starts_with_app;
      reflexivity.
  - cbn [app contains]. rewrite IH. apply orb_true_r.
Qed.

(** X12: for an id that no task has, [delete] and the results resource
    answer not-found with a message that contains the id in decimal,
    and change nothing. *)
Theorem not_found_messages_name_the_id (id : Z) (w : World) :
  existsb (db.has_id id) (db.tasks (store w)) = false ->
  exists m1 m2,
    Task.delete id w = (Returned (Msg m1, NOT_FOUND), w)
    /\ contains (str_of_int id) m1 = true
    /\ TaskResult.get id w = (Returned (Msg m2, NOT_FOUND), w)
    /\ contains (str_of_int id) m2 = true.
Proof.
  intros H. apply existsb_find_none in H.
  exists (lit "task id=" ++ str_of_int id ++ lit " not found"),
         (lit "task id=" ++ str_of_int id ++ lit " not found").
  rewrite delete_run, results_get_run, H, not_found_message.
  repeat split; apply contains_app.
Qed.

Lemma not_found_messages_name_the_id_witness :
  exists m1 m2,
    Task.delete (-12) world1 = (Returned (Msg m1, NOT_FOUND), world1)
    /\ contains (str_of_int (-12)) m1 = true
    /\ TaskResult.get (-12) world1 = (Returned (Msg m2, NOT_FOUND), world1)
    /\ contains (str_of_int (-12)) m2 = true.
Proof. apply (not_found_messages_name_the_id (-12) world1). reflexivity. Defined.

(** X13: when the id of the payload is truthy and resolves to nothing,
    the not-found message of [post] contains the id as Python prints
    it: the decimal numeral of an integer, the characters of a
    string. *)
Theorem post_not_found_message_names_the_id (data : list (pystr * value)) (w : World) :
  truthy (dict_get data (lit "collaboration_id") VNone) = true ->
  resolve (dict_get data (lit "collaboration_id") VNone) w = None ->
  exists m,
    Task.post data w = (Returned (Msg m, NOT_FOUND), w)
    /\ contains (str (dict_get data (lit "collaboration_id") VNone)) m = true
    /\ (forall z, dict_get data (lit "collaboration_id") VNone = VInt z ->
        m = lit "collaboration id=" ++ str_of_int z ++ lit " not found")
    /\ (forall s, dict_get data (lit "collaboration_id") VNone = VStr s ->
        m = lit "collaboration id=" ++ s ++ lit " not found").
Proof.
  intros H1 H2.
  exists (lit "collaboration id=" ++ str (dict_get data (lit "collaboration_id") VNone)
          ++ lit " not found").
  split; [rewrite (post_unresolved data w H1 H2); reflexivity|].
  split; [apply contains_app|]. split.
  - intros z Hz. rewrite Hz. reflexivity.
  - intros s Hs. rewrite Hs. reflexivity.
Qed.

Lemma post_not_found_message_names_the_id_witness :
  exists m,
    Task.post [(lit "collaboration_id", VInt 99)] (world0 [])
    = (Returned (Msg m, NOT_FOUND), world0 [])
    /\ contains (str (dict_get [(lit "collaboration_id", VInt 99)]
                       (lit "collaboration_id") VNone)) m = true
    /\ (forall z, dict_get [(lit "collaboration_id", VInt 99)]
                    (lit "collaboration_id") VNone = VInt z ->
        m = lit "collaboration id=" ++ str_of_int z ++ lit " not found")
    /\ (forall s, dict_get [(lit "collaboration_id", VInt 99)]
                    (lit "collaboration_id") VNone = VStr s ->
        m = lit "collaboration id=" ++ s ++ lit " not found").
Proof.
  apply (post_not_found_message_names_the_id [(lit "collaboration_id", VInt 99)] (world0 []));
    reflexivity.
Defined.

(** ** The text stored for an input that is not a string *)

Local Open Scope N_scope.

Lemma printable_digits (d : Decimal.uint) : forallb printable (digits d) = true.
Proof. induction d; cbn [digits forallb]; try rewrite IHd; reflexivity. Qed.

Lemma printable_str_of_int (z : Z) : forallb printable (str_of_int z) = true.
Proof.
  unfold str_of_int. destruct (Z.to_int z); cbn [forallb]; rewrite printable_digits; reflexivity.
Qed.

Lemma printable_hex_digit (d : N) : d < 16 -> printable (hex_digit d) = true.
Proof.
  intros H. unfold printable, hex_digit.
  destruct (N.ltb_spec d 10); apply andb_true_iff; split; apply N.leb_le; lia.
Qed.

Lemma printable_backslash_u (n : N) : forallb printable (backslash_u n) = true.
Proof.
  unfold backslash_u, hex4. cbn [forallb].
  rewrite !printable_hex_digit by (apply N.mod_lt; discriminate). reflexivity.
Qed.

Lemma printable_escape_char (c : N) : forallb printable (escape_char c) = true.
Proof.
  unfold escape_char.
  repeat (match goal with |- context [if ?x =? ?y then _ else _] => destruct (x =? y) end;
          [reflexivity|]).
  destruct ((32 <=? c) && (c <=? 126)) eqn:E.
  - cbn [forallb]. unfold printable. rewrite E. reflexivity.
  - destruct (c <? 65536); [apply printable_backslash_u|].
    rewrite forallb_app, !printable_backslash_u. reflexivity.
Qed.

Lemma printable_encode (s : pystr) : forallb printable (encode_basestring_ascii s) = true.
Proof.
  unfold encode_basestring_ascii. cbn [forallb]. rewrite forallb_app. cbn [forallb].
  replace (forallb printable (flat_map escape_char s)) with true; [reflexivity|].
  symmetry. induction s as [|c s IH]; [reflexivity|]. cbn [flat_map].
  rewrite forallb_app, printable_escape_char, IH. reflexivity.
Qed.

Lemma printable_join (sep : pystr) (parts : list pystr) :
  forallb printable sep = true ->
  forallb (forallb printable) parts = true ->
  forallb printable (join sep parts) = true.
Proof.
  intros Hs. induction parts as [|p ps IH]; [reflexivity|]. cbn [forallb].
  intros H. apply andb_true_iff in H as [Hp Hps].
  destruct ps as [|q ps]; [exact Hp|].
  change (join sep (p :: q :: ps)) with (p ++ sep ++ join sep (q :: ps)).
  rewrite !forallb_app, Hp, Hs, (IH Hps). reflexivity.
Qed.

(** The text [dumps] writes is printable ASCII, whatever the value. *)
Lemma printable_dumps (v : value) : forallb printable (dumps v) = true.
Proof.
  induction v as [|b|z|s|l IH|d IH] using value_ind_nested; cbn [dumps].
  - reflexivity.
  - destruct b; reflexivity.
  - apply printable_str_of_int.
  - apply printable_encode.
  - cbn [forallb]. rewrite forallb_app. cbn [forallb].
    rewrite printable_join; [reflexivity|reflexivity|].
    induction IH as [|x l Hx Hl IHl]; [reflexivity|]. cbn [map forallb]. rewrite Hx, IHl.
    reflexivity.
  - cbn [forallb]. rewrite forallb_app. cbn [forallb].
    rewrite printable_join; [reflexivity|reflexivity|].
    induction IH as [|[k x] d Hx Hd IHd]; [reflexivity|]. cbn [map forallb fst snd] in *.
    rewrite !forallb_app, printable_encode, Hx, IHd. reflexivity.
Qed.

Local Close Scope N_scope.

(** X14: the input a successful [post] stores for a value that is not a
    string is printable ASCII throughout: every character outside the
    range from the space to the tilde, and the quote and the backslash,
    are written as escapes. *)
Theorem post_stores_ascii (data : list (pystr * value)) (w w' : World) (b : body) :
  consistent (store w) = true ->
  Task.post data w = (Returned (b, OK), w') ->
  is_str (dict_get data (lit "input") (VStr [])) = false ->
  exists t text,
    b = Dumped (One {| view_task := t; view_results := None |})
    /\ In t (db.tasks (store w'))
    /\ db.Task_input t = VStr text
    /\ forallb printable text = true.
Proof.
  intros Hc H Hs. destruct (post_ok_inv _ _ _ _ Hc H) as (c & H1 & H2 & F0 & F1).
  rewrite (post_ok _ _ _ H1 H2 Hc F0 F1) in H. injection H as Hb Hw.
  exists (created data c w), (dumps (dict_get data (lit "input") (VStr []))).
  split; [symmetry; exact Hb|]. split.
  { subst w'. cbn [store db.tasks]. apply in_or_app. right. left. reflexivity. }
  rewrite created_input, Hs. split; [reflexivity|apply printable_dumps].
Qed.

Lemma post_stores_ascii_witness :
  exists t text,
    Dumped (One {| view_task :=
                     created [(lit "collaboration_id", VInt 8);
                              (lit "input", VList [VStr [233; 10; 128512]%N])]
                       collaboration8 (world0 []);
                   view_results := None |})
    = Dumped (One {| view_task := t; view_results := None |})
    /\ In t (db.tasks (store (snd (Task.post [(lit "collaboration_id", VInt 8);
                                             (lit "input", VList [VStr [233; 10; 128512]%N])]
                                    (world0 [])))))
    /\ db.Task_input t = VStr text
    /\ forallb printable text = true.
Proof.
  apply (post_stores_ascii [(lit "collaboration_id", VInt 8);
                            (lit "input", VList [VStr [233; 10; 128512]%N])]
           (world0 [])
           (snd (Task.post [(lit "collaboration_id", VInt 8);
                            (lit "input", VList [VStr [233; 10; 128512]%N])] (world0 []))));
    vm_compute; reflexivity.
Defined.

(** X15: [post] stores a value that is not a string exactly as it
    stores the string of its JSON text: from the stored input alone the
    two submissions cannot be told apart. *)
Theorem post_input_value_or_its_text
  (d1 d2 : list (pystr * value)) (w w1 w2 : World) (b1 b2 : body) :
  consistent (store w) = true ->
  Task.post d1 w = (Returned (b1, OK), w1) ->
  Task.post d2 w = (Returned (b2, OK), w2) ->
  is_str (dict_get d1 (lit "input") (VStr [])) = false ->
  dict_get d2 (lit "input") (VStr []) = VStr (dumps (dict_get d1 (lit "input") (VStr []))) ->
  exists t1 t2,
    b1 = Dumped (One {| view_task := t1; view_results := None |})
    /\ b2 = Dumped (One {| view_task := t2; view_results := None |})
    /\ db.Task_input t1 = db.Task_input t2.
Proof.
  intros Hc Hp1 Hp2 Hs He.
  destruct (post_ok_inv _ _ _ _ Hc Hp1) as (c1 & A1 & A2 & A3 & A4).
  destruct (post_ok_inv _ _ _ _ Hc Hp2) as (c2 & B1 & B2 & _ & _).
  rewrite (post_ok _ _ _ A1 A2 Hc A3 A4) in Hp1. injection Hp1 as Hb1 _.
  rewrite (post_ok _ _ _ B1 B2 Hc A3 A4) in Hp2. injection Hp2 as Hb2 _.
  exists (created d1 c1 w), (created d2 c2 w).
  split; [symmetry; exact Hb1|]. split; [symmetry; exact Hb2|].
  rewrite !created_input, He, Hs. reflexivity.
Qed.

Lemma post_input_value_or_its_text_witness :
  exists t1 t2,
    Dumped (One {| view_task := created [(lit "collaboration_id", VInt 8); (lit "input", VInt 1)]
                                  collaboration8 (world0 []);
                   view_results := None |})
    = Dumped (One {| view_task := t1; view_results := None |})
    /\ Dumped (One {| view_task :=
                        created [(lit "collaboration_id", VInt 8); (lit "input", VStr (lit "1"))]
                          collaboration8 (world0 []);
                      view_results := None |})
       = Dumped (One {| view_task := t2; view_results := None |})
    /\ db.Task_input t1 = db.Task_input t2.
Proof.
  apply (post_input_value_or_its_text
           [(lit "collaboration_id", VInt 8); (lit "input", VInt 1)]
           [(lit "collaboration_id", VInt 8); (lit "input", VStr (lit "1"))]
           (world0 [])
           (snd (Task.post [(lit "collaboration_id", VInt 8); (lit "input", VInt 1)] (world0 [])))
           (snd (Task.post [(lit "collaboration_id", VInt 8); (lit "input", VStr (lit "1"))]
                   (world0 []))));
    vm_compute; reflexivity.
Defined.

(** X16: two values the JSON decoder can give, neither a string, that
    [post] stores as the same text are the same value: among such
    inputs the stored text loses nothing. *)
Theorem post_distinct_inputs
  (d1 d2 : list (pystr * value)) (w u w1 u1 : World) (b1 b2 : body) (t1 t2 : db.Task) :
  consistent (store w) = true -> consistent (store u) = true ->
  decoded (VDict d1) = true -> decoded (VDict d2) = true ->
  Task.post d1 w = (Returned (b1, OK), w1) ->
  Task.post d2 u = (Returned (b2, OK), u1) ->
  b1 = Dumped (One {| view_task := t1; view_results := None |}) ->
  b2 = Dumped (One {| view_task := t2; view_results := None |}) ->
  is_str (dict_get d1 (lit "input") (VStr [])) = false ->
  is_str (dict_get d2 (lit "input") (VStr [])) = false ->
  db.Task_input t1 = db.Task_input t2 ->
  dict_get d1 (lit "input") (VStr []) = dict_get d2 (lit "input") (VStr []).
Proof.
  intros Hcw Hcu D1 D2 Hp1 Hp2 E1 E2 S1 S2 Heq.
  destruct (post_ok_inv _ _ _ _ Hcw Hp1) as (c1 & A1 & A2 & A3 & A4).
  destruct (post_ok_inv _ _ _ _ Hcu Hp2) as (c2 & B1 & B2 & B3 & B4).
  rewrite (post_ok _ _ _ A1 A2 Hcw A3 A4) in Hp1. injection Hp1 as Hb1 _.
  rewrite (post_ok _ _ _ B1 B2 Hcu B3 B4) in Hp2. injection Hp2 as Hb2 _.
  rewrite <- Hb1 in E1. rewrite <- Hb2 in E2. injection E1 as <-. injection E2 as <-.
  rewrite !created_input, S1, S2 in Heq. cbn [negb] in Heq. injection Heq as Heq.
  assert (L1 := loads_dumps _ (dict_get_decoded d1 (lit "input") (VStr []) D1 eq_refl)).
  assert (L2 := loads_dumps _ (dict_get_decoded d2 (lit "input") (VStr []) D2 eq_refl)).
  rewrite Heq in L1. congruence.
Qed.

Lemma post_distinct_inputs_witness :
  dict_get payload7 (lit "input") (VStr []) = dict_get payload7 (lit "input") (VStr []).
Proof.
  apply (post_distinct_inputs payload7 payload7 (world0 []) (world0 []) world1 world1
           (Dumped (One {| view_task := created payload7 collaboration7 (world0 []);
                           view_results := None |}))
           (Dumped (One {| view_task := created payload7 collaboration7 (world0 []);
                           view_results := None |}))
           (created payload7 collaboration7 (world0 []))
           (created payload7 collaboration7 (world0 [])));
    reflexivity.
Defined.

(** ** The routes *)

Lemma app_nonempty_neq (A : Type) (l t : list A) : t <> [] -> l <> l ++ t.
Proof.
  intros Ht H. apply (f_equal (@List.length A)) in H. rewrite List.length_app in H.
  destruct t; [congruence|]. cbn [List.length] in H. lia.
Qed.

(** X17: whatever the base of the API, [setup] adds three rules to an
    API: their paths all begin with the base followed by [/task], no two
    of them have the same path or the same endpoint, POST is offered
    only on the path without an id and only by the task resource,
    DELETE only on the path of one task, and the results resource is
    reached by GET alone. *)
Theorem setup_routes (API_BASE : pystr) :
  List.length (setup [] API_BASE) = 3%nat
  /\ Forall (fun r => starts_with (API_BASE ++ lit "/task") (rule_path r) = true)
       (setup [] API_BASE)
  /\ NoDup (map rule_path (setup [] API_BASE))
  /\ NoDup (map rule_endpoint (setup [] API_BASE))
  /\ (forall r, In r (setup [] API_BASE) -> In POST (rule_methods r) ->
        rule_resource r = TaskResource /\ rule_path r = API_BASE ++ lit "/task")
  /\ (forall r, In r (setup [] API_BASE) -> In DELETE (rule_methods r) ->
        rule_resource r = TaskResource /\ rule_path r = API_BASE ++ lit "/task/<int:id>")
  /\ (forall r, In r (setup [] API_BASE) -> rule_resource r = TaskResultResource ->
        rule_methods r = [GET] /\ rule_path r = API_BASE ++ lit "/task/<int:id>/result").
Proof.
  assert (Hp : join (lit "/") [API_BASE; module_name] = API_BASE ++ lit "/task")
    by reflexivity.
  unfold setup, add_resource. rewrite Hp. cbn [app].
  set (p := API_BASE ++ lit "/task").
  assert (P1 : p ++ lit "/<int:id>" = API_BASE ++ lit "/task/<int:id>")
    by (unfold p; rewrite <- app_assoc; reflexivity).
  assert (P2 : p ++ lit "/<int:id>/result" = API_BASE ++ lit "/task/<int:id>/result")
    by (unfold p; rewrite <- app_assoc; reflexivity).
  split; [reflexivity|]. split.
  { repeat constructor; cbn [rule_path]; [rewrite <- (List.app_nil_r p) at 2|..];
      apply starts_with_app. }
  split.
  { cbn [map rule_path]. repeat constructor; cbn [In].
    - intros [H|[H|[]]]; symmetry in H; revert H; apply app_nonempty_neq; discriminate.
    - intros [H|[]]. apply app_inv_head in H. discriminate.
    - intros []. }
  split.
  { cbn [map rule_endpoint]. repeat constructor; cbn [In]; intuition discriminate. }
  split; [|split].
  - intros r [<-|[<-|[<-|[]]]]; cbn [rule_methods rule_resource rule_path In].
    + intros _. split; reflexivity.
    + intros [H|[H|[]]]; discriminate.
    + intros [H|[]]; discriminate.
  - intros r [<-|[<-|[<-|[]]]]; cbn [rule_methods rule_resource rule_path In].
    + intros [H|[H|[]]]; discriminate.
    + intros _. split; [reflexivity|exact P1].
    + intros [H|[]]; discriminate.
  - intros r [<-|[<-|[<-|[]]]]; cbn [rule_methods rule_resource rule_path];
      try discriminate. intros _. split; [reflexivity|exact P2].
Qed.
